(** * Soil Carbon API: nearest-sample lookup and its HTTP endpoint

    A shallow embedding of [main.py] (the real service), [main_simple.py]
    (the mock variant) and the request/response models both files declare.

    Python floats are IEEE-754 binary64 numbers, so they are modelled by
    Rocq's primitive [float]: [+], [*], [/] and [<=?] below are the very
    operations the interpreter performs.  A null cell of a pandas float
    column is a NaN, and is modelled as such.

    What the repository borrows from libraries (loading the OSSL table,
    the reprojection to EPSG:3857, the planar distance, the formatting of
    a float inside an f-string, the order in which the spatial index lists
    its matches and the sort leaves rows of equal key) is gathered in the
    record [Env]; every result below holds for every [Env]. *)

From Stdlib Require Import Floats ZArith List String Bool Lia.
From Stdlib Require Import Sorted Reals Lra Machin.
Import ListNotations.

(* Decimal literals denote the nearest binary64 number, as in Python. *)
#[local] Set Warnings "-inexact-float".

(** ** Python values that travel through the endpoint *)

Module Py.

(** The result of running a Python block: a value, or a raised
    exception carrying [str(e)]. *)
Inductive outcome (A : Type) : Type :=
| Returned (a : A)
| Raised (msg : string).
Arguments Returned {A} a.
Arguments Raised {A} msg.

(** Values stored in the [data] dictionary. *)
Inductive value : Type :=
| Float (f : float)
| Str (s : string).

(** A [dict] with string keys, in insertion order. *)
Definition dict : Type := list (string * value).


Fixpoint get (d : dict) (k : string) : option value :=
  match d with
  | [] => None
  | (k', v) :: d' => if String.eqb k k' then Some v else get d' k
  end.

(** [pd.notnull] on a float cell. *)
Definition notnull (v : float) : bool := negb (is_nan v).

(** [lo <= v <= hi], i.e. [lo <= v and v <= hi]. *)
Definition between (lo v hi : float) : bool := ((lo <=? v) && (v <=? hi))%float.

End Py.
Import Py.

(** ** Request and response models (identical in both source files) *)

Module Models.
Local Open Scope string_scope.
Local Open Scope float_scope.

(** A field of the JSON body: absent, explicitly [null], or a number. *)
Inductive field (A : Type) : Type :=
| Omitted
| Null
| Given (a : A).
Arguments Omitted {A}.
Arguments Null {A}.
Arguments Given {A} a.

(** A JSON body carrying numeric coordinates. *)
Record RequestBody : Type := {
  json_latitude : float;
  json_longitude : float;
  json_max_distance_km : field float
}.

(** [class SoilCarbonRequest(BaseModel)], after validation. *)
Record SoilCarbonRequest : Type := {
  latitude : float;
  longitude : float;
  max_distance_km : option float
}.

(** [class SoilCarbonResponse(BaseModel)]. *)
Record SoilCarbonResponse : Type := {
  success : bool;
  message : string;
  data : option dict
}.


(** One entry of a validation report: the field and the bound it broke. *)
Inductive constraint : Type :=
| GreaterThanEqual (bound : float)
| LessThanEqual (bound : float).

Record error_item : Type := {
  loc : string;
  violated : constraint
}.

(** [Field(..., ge=lo, le=hi)] applied to a number: the value must
    satisfy [v <= hi] and [v >= lo]; the upper bound is tested first, so
    that is the bound a NaN is reported to break. *)
Definition check_bounds (name : string) (lo hi v : float) : list error_item :=
  if negb (v <=? hi) then [ {| loc := name; violated := LessThanEqual hi |} ]
  else if negb (lo <=? v) then [ {| loc := name; violated := GreaterThanEqual lo |} ]
  else [].

(** [max_distance_km: Optional[float] = Field(10.0, ge=0.1, le=1000)]:
    the default stands in for an absent field, [null] is a legal
    [Optional] value, and the bounds constrain numbers. *)
Definition validate_max_distance_km (f : field float)
  : list error_item * option float :=
  match f with
  | Omitted => ([], Some 10.0)
  | Null => ([], None)
  | Given v => (check_bounds "max_distance_km" 0.1 1000 v, Some v)
  end.

(** Validation of the whole body; every failing field is reported. *)
Definition validate_request (b : RequestBody)
  : list error_item + SoilCarbonRequest :=
  let (errs_dist, dist) := validate_max_distance_km (json_max_distance_km b) in
  match (check_bounds "latitude" (-90) 90 (json_latitude b)
         ++ check_bounds "longitude" (-180) 180 (json_longitude b)
         ++ errs_dist)%list with
  | [] => inr {| latitude := json_latitude b;
                 longitude := json_longitude b;
                 max_distance_km := dist |}
  | errs => inl errs
  end.

(** What the framework sends back. *)
Inductive detail : Type :=
| DetailText (s : string)
| DetailErrors (errs : list error_item).

(** A 200 with a [SoilCarbonResponse], an error status with a JSON
    [detail], or an error status with a plain-text body. *)
Inductive http_response : Type :=
| Http200 (body : SoilCarbonResponse)
| HttpError (status : Z) (d : detail)
| PlainText (status : Z) (text : string).

Definition is_client_error (r : http_response) : bool :=
  match r with
  | Http200 _ => false
  | HttpError status _ | PlainText status _ =>
      ((400 <=? status) && (status <? 500))%Z
  end.

(** The inputs a validation report echoes back: the value of every
    field that failed. *)
Definition echoed_inputs (b : RequestBody) : list float :=
  let echo (errs : list error_item) (v : float) : list float :=
      match errs with
      | [] => []
      | _ :: _ => [v]
      end in
  (echo (check_bounds "latitude" (-90) 90 (json_latitude b)) (json_latitude b)
   ++ echo (check_bounds "longitude" (-180) 180 (json_longitude b))
           (json_longitude b)
   ++ match json_max_distance_km b with
      | Given v => echo (check_bounds "max_distance_km" 0.1 1000 v) v
      | Omitted | Null => []
      end)%list.

(** The framework's answer to a body that failed validation: a 422 whose
    detail is the report, rendered as JSON with the inputs it echoes.
    JSON has no literal for an infinity or a NaN: when one is echoed the
    rendering fails, and the failure surfaces as a plain-text 500. *)
Definition request_validation_response (b : RequestBody)
           (errs : list error_item) : http_response :=
  if forallb is_finite (echoed_inputs b)
  then HttpError 422 (DetailErrors errs)
  else PlainText 500 "Internal Server Error".

End Models.
Import Models.

(** ** main.py *)

Module Main.
Local Open Scope string_scope.
Local Open Scope float_scope.

(** A row of the table returned by [ossl.get_properties]; the row label
    is the sample identifier, a null cell is a NaN. *)
Record Row : Type := {
  name : string;
  latitude_point_wgs84_dd : float;
  longitude_point_wgs84_dd : float;
  oc_iso_10694_w_pct : float;
  oc_usda_c1059_w_pct : float;
  oc_usda_c729_w_pct : float
}.

(** A planar or geographic point [(x, y)]. *)
Definition point : Type := (float * float)%type.

(** The library layer. *)
Record Env : Type := {
  (** [get_ossl().get_properties([...], require_complete=False)] *)
  get_properties : outcome (list Row);
  (** [to_crs(epsg=3857)] on one point [(lon, lat)] *)
  to_crs_3857 : point -> point;
  (** [geometry.distance] between two projected points *)
  distance : point -> point -> float;
  (** a float formatted inside an f-string *)
  str_float : float -> string;
  (** the place [sindex.intersection] gives a row among the matches it
      lists for a frame: the order of the spatial index, not of the table *)
  sindex_rank : list Row -> Row -> nat;
  (** the place [sort_values] gives a row among rows of equal key of a
      frame: its default sort is not stable *)
  tie_rank : list (Row * float) -> Row * float -> nat;
  (** [str(e)] of the exception [buffer] raises for a distance that is
      not finite *)
  buffer_error : float -> string
}.

(** [props.dropna(subset=[latitude, longitude])] *)
Definition dropna (props : list Row) : list Row :=
  filter (fun r => notnull (latitude_point_wgs84_dd r)
                   && notnull (longitude_point_wgs84_dd r)) props.

(** [Point(lon, lat).buffer(buffer_deg).bounds]: [(minx, miny, maxx,
    maxy)].  A distance that is not finite is refused; a distance that is
    not positive gives an empty polygon, whose bounds are NaN. *)
Definition buffer_bounds (E : Env) (lon lat buffer_deg : float)
  : outcome (float * float * float * float) :=
  if is_finite buffer_deg then
    if 0 <? buffer_deg then
      Returned (lon - buffer_deg, lat - buffer_deg,
                lon + buffer_deg, lat + buffer_deg)
    else Returned (nan, nan, nan, nan)
  else Raised (buffer_error E buffer_deg).

(** Whether the point of a row falls inside a box, borders included. *)
Definition in_bbox (bbox : float * float * float * float) (r : Row) : bool :=
  let '(minx, miny, maxx, maxy) := bbox in
  between minx (longitude_point_wgs84_dd r) maxx
  && between miny (latitude_point_wgs84_dd r) maxy.

Fixpoint insert_by_rank (rank : Row -> nat) (x : Row) (l : list Row)
  : list Row :=
  match l with
  | [] => [x]
  | y :: l' => if (rank x <=? rank y)%nat then x :: l
               else y :: insert_by_rank rank x l'
  end.

(** Rows arranged by increasing rank. *)
Fixpoint order_by_rank (rank : Row -> nat) (l : list Row) : list Row :=
  match l with
  | [] => []
  | x :: l' => insert_by_rank rank x (order_by_rank rank l')
  end.

(** [gdf.iloc[list(sindex.intersection(bbox))]]: the rows whose point
    falls inside the box, in the order the spatial index lists them. *)
Definition sindex_intersection (E : Env)
           (bbox : float * float * float * float) (gdf : list Row)
  : list Row :=
  order_by_rank (sindex_rank E gdf) (filter (in_bbox bbox) gdf).

(** The [possible_matches] of a query; there are none to speak of when
    the buffer could not be built. *)
Definition possible_matches (E : Env) (lat lon r : float) (props : list Row)
  : list Row :=
  match buffer_bounds E lon lat (r / 111) with
  | Returned bbox => sindex_intersection E bbox (dropna props)
  | Raised _ => []
  end.

(** [possible_matches_proj] with its new column [distance_m]. *)
Definition with_distance_m (E : Env) (lat lon : float) (rows : list Row)
  : list (Row * float) :=
  let input := to_crs_3857 E (lon, lat) in
  map (fun r =>
         (r, distance E
               (to_crs_3857 E (longitude_point_wgs84_dd r,
                               latitude_point_wgs84_dd r))
               input)) rows.

(** [nearby]: the candidates whose [distance_m] is within the radius. *)
Definition nearby (E : Env) (lat lon r : float) (props : list Row)
  : list (Row * float) :=
  filter (fun p => snd p <=? r * 1000)
         (with_distance_m E lat lon (possible_matches E lat lon r props)).

(** Ascending order on sort keys, NaN last. *)
Definition key_le (a b : float) : bool := is_nan b || (a <=? b).

(** Whether [p] goes before [q]: by key, and by rank among equal keys. *)
Definition precedes (rank : Row * float -> nat) (p q : Row * float) : bool :=
  key_le (snd p) (snd q)
  && (negb (key_le (snd q) (snd p)) || (rank p <=? rank q)%nat).

Fixpoint insert_by_distance (rank : Row * float -> nat) (p : Row * float)
         (l : list (Row * float)) : list (Row * float) :=
  match l with
  | [] => [p]
  | q :: l' => if precedes rank p q then p :: l
               else q :: insert_by_distance rank p l'
  end.

Fixpoint sort_by_distance (rank : Row * float -> nat)
         (l : list (Row * float)) : list (Row * float) :=
  match l with
  | [] => []
  | p :: l' => insert_by_distance rank p (sort_by_distance rank l')
  end.

(** [sort_values('distance_m')]: ascending keys, NaN last, rows of equal
    key in the order the sort happens to leave them. *)
Definition sort_values (E : Env) (l : list (Row * float))
  : list (Row * float) :=
  sort_by_distance (tie_rank E l) l.

(** The order [sort_values] establishes between rows. *)
Definition by_distance (p q : Row * float) : Prop :=
  key_le (snd p) (snd q) = true.

(** The [for var in [...]: ... break ... else: ...] loop: the first
    non-null reading in priority order, if any. *)
Definition first_carbon (nearest : Row) : option float :=
  let fix scan (vals : list float) : option float :=
      match vals with
      | [] => None
      | val :: rest => if notnull val then Some val else scan rest
      end in
  scan [oc_iso_10694_w_pct nearest;
        oc_usda_c1059_w_pct nearest;
        oc_usda_c729_w_pct nearest].

Inductive lookup_result : Type :=
| Message (s : string)
| Data (d : dict).

Definition no_data_message (E : Env) (r : float) : string :=
  "No Data in " ++ str_float E r ++ " km radius".

Definition no_carbon_message (E : Env) (r : float) : string :=
  "No organic carbon data available within " ++ str_float E r ++ " km".

Definition sample_dict (nearest : Row * float) (carbon_val : float) : dict :=
  [ ("carbon_pct", Float carbon_val);
    ("sample_id", Str (name (fst nearest)));
    ("distance_meters", Float (snd nearest));
    ("latitude", Float (latitude_point_wgs84_dd (fst nearest)));
    ("longitude", Float (longitude_point_wgs84_dd (fst nearest))) ].

(** The body of the [try] block. *)
Definition lookup_body (E : Env) (lat lon : float)
           (max_distance_km : option float) : outcome lookup_result :=
  match get_properties E with
  | Raised e => Raised e
  | Returned props =>
      match max_distance_km with
      | None =>
          Raised "unsupported operand type(s) for /: 'NoneType' and 'float'"
      | Some r =>
          match buffer_bounds E lon lat (r / 111) with
          | Raised e => Raised e
          | Returned _ =>
              match possible_matches E lat lon r props with
              | [] => Returned (Message (no_data_message E r))
              | _ :: _ =>
                  match nearby E lat lon r props with
                  | [] => Returned (Message (no_data_message E r))
                  | _ :: _ =>
                      match sort_values E (nearby E lat lon r props) with
                      | [] =>
                          Raised "single positional indexer is out-of-bounds"
                      | nearest :: _ =>
                          match first_carbon (fst nearest) with
                          | None => Returned (Message (no_carbon_message E r))
                          | Some carbon_val =>
                              Returned (Data (sample_dict nearest carbon_val))
                          end
                      end
                  end
              end
          end
      end
  end.

(** [def find_soil_carbon_optimized(lat, lon, max_distance_km)]: the
    [try] block, with every exception re-raised under a new message. *)
Definition find_soil_carbon_optimized (E : Env) (lat lon : float)
           (max_distance_km : option float) : outcome lookup_result :=
  match lookup_body E lat lon max_distance_km with
  | Returned res => Returned res
  | Raised e => Raised ("Error processing soil carbon data: " ++ e)
  end.

(** One invocation of the lookup, as seen by an observer. *)
Record lookup_call : Type := {
  call_lat : float;
  call_lon : float;
  call_max_distance_km : option float
}.

(** [async def get_soil_carbon(request)]: the response, and the lookup
    calls made on the way. *)
Definition get_soil_carbon (E : Env) (request : SoilCarbonRequest)
  : http_response * list lookup_call :=
  if negb (between (-90) (latitude request) 90) then
    (HttpError 400 (DetailText "Latitude must be between -90 and 90 degrees"), [])
  else if negb (between (-180) (longitude request) 180) then
    (HttpError 400 (DetailText "Longitude must be between -180 and 180 degrees"), [])
  else
    let call := {| call_lat := latitude request;
                   call_lon := longitude request;
                   call_max_distance_km := max_distance_km request |} in
    match find_soil_carbon_optimized E (latitude request) (longitude request)
                                     (max_distance_km request) with
    | Returned (Message result) =>
        (Http200 {| success := false; message := result; data := None |},
         [call])
    | Returned (Data result) =>
        (Http200 {| success := true;
                    message := "Soil carbon data found successfully";
                    data := Some result |},
         [call])
    | Raised e =>
        (HttpError 500 (DetailText ("Internal server error: " ++ e)), [call])
    end.

(** [POST /soil_carbon]: the framework validates the body against
    [SoilCarbonRequest] and answers by itself when that fails; the
    handler runs on validated requests only. *)
Definition post_soil_carbon (E : Env) (b : RequestBody)
  : http_response * list lookup_call :=
  match validate_request b with
  | inl errs => (request_validation_response b errs, [])
  | inr request => get_soil_carbon E request
  end.

End Main.

(** ** main_simple.py *)

Module MainSimple.
Local Open Scope string_scope.
Local Open Scope float_scope.

Definition mock_data (request : SoilCarbonRequest) : dict :=
  [ ("carbon_pct", Float 2.5);
    ("sample_id", Str "mock_12345");
    ("distance_meters", Float 1500.0);
    ("latitude", Float (latitude request + 0.01));
    ("longitude", Float (longitude request + 0.01));
    ("note", Str "This is mock data. Real soil carbon functionality will be added after deployment.") ].

(** [async def get_soil_carbon(request)] of the mock variant. *)
Definition get_soil_carbon (request : SoilCarbonRequest) : http_response :=
  if negb (between (-90) (latitude request) 90) then
    HttpError 400 (DetailText "Latitude must be between -90 and 90 degrees")
  else if negb (between (-180) (longitude request) 180) then
    HttpError 400 (DetailText "Longitude must be between -180 and 180 degrees")
  else
    Http200 {| success := true;
               message := "Mock soil carbon data returned successfully";
               data := Some (mock_data request) |}.

Definition post_soil_carbon (b : RequestBody) : http_response :=
  match validate_request b with
  | inl errs => request_validation_response b errs
  | inr request => get_soil_carbon request
  end.

End MainSimple.

(** ** What the reprojection computes, over the reals

    [to_crs(epsg=3857)] is the spherical ("Web") Mercator projection of
    EPSG:3857 and [geometry.distance] the Euclidean distance of the plane.
    Their defining formulas are stated here over [R], rounding aside, next
    to the great-circle distance the specification speaks of. *)

Module Epsg3857.
Local Open Scope R_scope.

Definition radians (deg : R) : R := deg * PI / 180.

(** Semi-major axis of WGS 84 in meters: the radius of the sphere
    EPSG:3857 projects from. *)
Definition semi_major_axis : R := 6378137.

(** Forward projection of a point [(lon, lat)] given in degrees. *)
Definition forward (p : R * R) : R * R :=
  (semi_major_axis * radians (fst p),
   semi_major_axis * ln (tan (PI / 4 + radians (snd p) / 2))).

Definition planar_distance (p q : R * R) : R :=
  sqrt ((fst p - fst q)² + (snd p - snd q)²).

(** The column [distance_m] of a sample at [(slat, slon)] for a query
    at [(lat, lon)]. *)
Definition distance_m (lat lon slat slon : R) : R :=
  planar_distance (forward (slon, slat)) (forward (lon, lat)).

(** The specification's yardstick: the great-circle distance between
    the two positions on a sphere of radius [rho] meters (spherical law
    of cosines). *)
Definition great_circle (rho lat lon slat slon : R) : R :=
  rho * acos (sin (radians lat) * sin (radians slat)
              + cos (radians lat) * cos (radians slat)
                * cos (radians slon - radians lon)).

End Epsg3857.

(** ** Concrete tables, library stand-ins and requests used in examples *)

Module Fixtures.
Import Main.
Local Open Scope string_scope.
Local Open Scope float_scope.

(** Meters per degree along the equator of the EPSG:3857 sphere. *)
Definition meters_per_degree : float := 111319.49079327357.

(** A stand-in for the reprojection: it scales both axes alike.  The
    examples keep every point on the equator, where EPSG:3857 maps all
    of them to one and the same ordinate as well. *)
Definition equatorial_crs (p : point) : point :=
  (fst p * meters_per_degree, snd p * meters_per_degree).

Definition euclidean (p q : point) : float :=
  PrimFloat.sqrt ((fst p - fst q) * (fst p - fst q) + (snd p - snd q) * (snd p - snd q)).

(** Renders the radii the examples use. *)
Definition show_radius (r : float) : string :=
  if r =? 10 then "10.0" else if r =? 5 then "5.0" else "<float>".

(** Nearest to the origin, but without any carbon reading. *)
Definition bare_sample : Row :=
  {| name := "bare";
     latitude_point_wgs84_dd := 0;
     longitude_point_wgs84_dd := 0.01;
     oc_iso_10694_w_pct := nan;
     oc_usda_c1059_w_pct := nan;
     oc_usda_c729_w_pct := nan |}.

(** Twice as far, with a reading in the second candidate field. *)
Definition rich_sample : Row :=
  {| name := "rich";
     latitude_point_wgs84_dd := 0;
     longitude_point_wgs84_dd := 0.02;
     oc_iso_10694_w_pct := nan;
     oc_usda_c1059_w_pct := 1.5;
     oc_usda_c729_w_pct := 3 |}.

(** Far outside any 10 km search. *)
Definition remote_sample : Row :=
  {| name := "remote";
     latitude_point_wgs84_dd := 0;
     longitude_point_wgs84_dd := 5;
     oc_iso_10694_w_pct := 2;
     oc_usda_c1059_w_pct := nan;
     oc_usda_c729_w_pct := nan |}.

(** A row without coordinates. *)
Definition unlocated_sample : Row :=
  {| name := "unlocated";
     latitude_point_wgs84_dd := nan;
     longitude_point_wgs84_dd := 0.001;
     oc_iso_10694_w_pct := 4;
     oc_usda_c1059_w_pct := nan;
     oc_usda_c729_w_pct := nan |}.

(** The [distance_m] the stand-ins give a row for a query at (0, 0). *)
Definition from_origin (row : Row) : float :=
  euclidean (equatorial_crs (longitude_point_wgs84_dd row,
                             latitude_point_wgs84_dd row))
            (equatorial_crs (0, 0)).

(** A near row without readings in front of a farther row with one. *)
Definition masking_table : list Row := [rich_sample; bare_sample].

(** One usable row near the origin among rows that do not count. *)
Definition sparse_table : list Row :=
  [remote_sample; rich_sample; unlocated_sample].

(** Stand-ins that keep the order of the table and name no error. *)
Definition table_order {A : Type} (frame : list A) (row : A) : nat := 0.

Definition env_of (rows : list Row) : Env :=
  {| get_properties := Returned rows;
     to_crs_3857 := equatorial_crs;
     distance := euclidean;
     str_float := show_radius;
     sindex_rank := table_order;
     tie_rank := table_order;
     buffer_error := fun _ => "distance is not finite" |}.

(** The library layer when the dataset cannot be loaded. *)
Definition env_offline : Env :=
  {| get_properties := Raised "dataset unavailable";
     to_crs_3857 := equatorial_crs;
     distance := euclidean;
     str_float := show_radius;
     sindex_rank := table_order;
     tie_rank := table_order;
     buffer_error := fun _ => "distance is not finite" |}.

(** Two rows at the same distance from the origin, one on each side. *)
Definition west_sample : Row :=
  {| name := "west";
     latitude_point_wgs84_dd := 0;
     longitude_point_wgs84_dd := -0.01;
     oc_iso_10694_w_pct := 1;
     oc_usda_c1059_w_pct := nan;
     oc_usda_c729_w_pct := nan |}.

Definition east_sample : Row :=
  {| name := "east";
     latitude_point_wgs84_dd := 0;
     longitude_point_wgs84_dd := 0.01;
     oc_iso_10694_w_pct := 2;
     oc_usda_c1059_w_pct := nan;
     oc_usda_c729_w_pct := nan |}.

(** An index that lists a frame of one or two rows in table order and
    a larger frame from east to west. *)
Definition east_first (frame : list Row) (row : Row) : nat :=
  if (List.length frame <=? 2)%nat then 0%nat
  else if longitude_point_wgs84_dd row <? 0 then 1%nat else 0%nat.

Definition env_east_first (rows : list Row) : Env :=
  {| get_properties := Returned rows;
     to_crs_3857 := equatorial_crs;
     distance := euclidean;
     str_float := show_radius;
     sindex_rank := east_first;
     tie_rank := table_order;
     buffer_error := fun _ => "distance is not finite" |}.

Definition origin (d : field float) : RequestBody :=
  {| json_latitude := 0; json_longitude := 0; json_max_distance_km := d |}.

(** The requests of [test_api.py]. *)
Definition boston : RequestBody :=
  {| json_latitude := 42.3601;
     json_longitude := -71.0589;
     json_max_distance_km := Given 10.0 |}.

Definition san_francisco : RequestBody :=
  {| json_latitude := 37.7749;
     json_longitude := -122.4194;
     json_max_distance_km := Given 5.0 |}.

Definition invalid_latitude : RequestBody :=
  {| json_latitude := 200.0;
     json_longitude := -71.0589;
     json_max_distance_km := Given 10.0 |}.

(** A latitude written [1e400] in the JSON text: it reads as infinity. *)
Definition overflowing_latitude : RequestBody :=
  {| json_latitude := infinity;
     json_longitude := -71.0589;
     json_max_distance_km := Omitted |}.

(** A body whose radius is the JSON token [NaN]. *)
Definition nan_radius : RequestBody :=
  {| json_latitude := 42.3601;
     json_longitude := -71.0589;
     json_max_distance_km := Given nan |}.

End Fixtures.


(** ** Classes of binary64 numbers *)

Module Ieee.

(** Zeros and numbers, as opposed to infinities and NaN. *)
Definition SF_is_finite (x : spec_float) : bool :=
  match x with
  | S754_zero _ | S754_finite _ _ _ => true
  | S754_infinity _ | S754_nan => false
  end.

(** The numbers a JSON body carries. *)
Definition numbers (b : Models.RequestBody) : list float :=
  Models.json_latitude b :: Models.json_longitude b ::
  match Models.json_max_distance_km b with
  | Models.Given v => [v]
  | Models.Omitted | Models.Null => []
  end.

(** No infinity and no NaN among them. *)
Definition all_finite (b : Models.RequestBody) : bool :=
  forallb is_finite (numbers b).

End Ieee.

(** ** The ordinate of the projection *)

Module Mercator.
Local Open Scope R_scope.

(** The ordinate [Epsg3857.forward] gives a latitude of [phi] radians,
    per meter of radius. *)
Definition stretched (phi : R) : R := ln (tan (PI / 4 + phi / 2)).

End Mercator.

(** ** The static endpoints and the routes the applications declare *)

Module Welcome.
Local Open Scope string_scope.

(** A value of a static payload: a string or a flat object of strings. *)
Inductive payload : Type :=
| Text (s : string)
| Object (fields : list (string * string)).

Fixpoint lookup {A : Type} (d : list (string * A)) (k : string) : option A :=
  match d with
  | [] => None
  | (k', v) :: d' => if String.eqb k k' then Some v else lookup d' k
  end.

(** [async def root()] of [main.py]. *)
Definition main_root : list (string * payload) :=
  [ ("message", Text "Welcome to the Soil Carbon API");
    ("description", Text "Query soil organic carbon data from OSSL dataset");
    ("endpoints", Object
       [ ("GET /", "This welcome message");
         ("POST /soil_carbon", "Query soil carbon data by coordinates");
         ("GET /docs", "Interactive API documentation");
         ("GET /redoc", "Alternative API documentation") ]) ].

(** [async def root()] of [main_simple.py]. *)
Definition main_simple_root : list (string * payload) :=
  [ ("message", Text "Welcome to the Soil Carbon API");
    ("description", Text "Query soil organic carbon data from OSSL dataset");
    ("status", Text "running");
    ("endpoints", Object
       [ ("GET /", "This welcome message");
         ("POST /soil_carbon", "Query soil carbon data by coordinates");
         ("GET /docs", "Interactive API documentation");
         ("GET /redoc", "Alternative API documentation");
         ("GET /health", "Health check endpoint") ]) ].

(** [async def health_check()] of [main_simple.py]. *)
Definition health_check : list (string * string) :=
  [ ("status", "healthy");
    ("message", "API is running");
    ("service", "soil-carbon-api") ].

(** The routes each file registers through [@app.get] and [@app.post]. *)
Definition main_routes : list string := ["GET /"; "POST /soil_carbon"].

Definition main_simple_routes : list string :=
  ["GET /"; "GET /health"; "POST /soil_carbon"].

(** The [endpoints] object of a welcome payload. *)
Definition endpoints (root : list (string * payload)) : list (string * string) :=
  match lookup root "endpoints" with
  | Some (Object fields) => fields
  | _ => []
  end.

End Welcome.

(** ** One library layer over another table *)

Module Tables.
Import Main.

(** The library layer [E] when the dataset holds [props]. *)
Definition with_table (E : Env) (props : list Row) : Env :=
  {| get_properties := Returned props;
     to_crs_3857 := to_crs_3857 E;
     distance := distance E;
     str_float := str_float E;
     sindex_rank := sindex_rank E;
     tie_rank := tie_rank E;
     buffer_error := buffer_error E |}.

End Tables.

(** ** test_api.py *)

Module TestApi.
Local Open Scope string_scope.

Definition status_code (response : http_response) : Z :=
  match response with
  | Http200 _ => 200
  | HttpError status _ | PlainText status _ => status
  end.

(** What [test_soil_carbon_endpoint] prints, line by line; [None] in a
    carbon or distance line is the ['N/A'] default of [dict.get], the
    error line shows the text of the response, and [RequestException] is
    the line of the [except] branch, whatever the exception. *)
Inductive printed : Type :=
| Testing (name : string)
| RequestSuccessful
| SuccessLine (success : bool)
| MessageLine (message : string)
| CarbonLine (carbon_pct : option value)
| DistanceLine (distance_meters : option value)
| RequestFailed (status : Z)
| ErrorLine (response : http_response)
| RequestException.

(** The body of the [for] loop, given what [requests.post] did: it
    raised, or it returned the response of the server.  A 200 that is
    not JSON fails in [response.json()], a 200 whose JSON has no
    [success] key fails after the first line. *)
Definition report (name : string) (posted : outcome http_response)
  : list printed :=
  Testing name ::
  match posted with
  | Raised _ => [RequestException]
  | Returned response =>
      if (status_code response =? 200)%Z then
        match response with
        | Http200 result =>
            [RequestSuccessful;
             SuccessLine (success result);
             MessageLine (message result)]
            ++ match data result with
               | Some ((_ :: _) as d) =>
                   [CarbonLine (get d "carbon_pct");
                    DistanceLine (get d "distance_meters")]
               | _ => []
               end
        | HttpError _ _ => [RequestSuccessful; RequestException]
        | PlainText _ _ => [RequestException]
        end
      else [RequestFailed (status_code response); ErrorLine response]
  end.

Definition test_cases : list (string * RequestBody) :=
  [ ("Boston, MA", Fixtures.boston);
    ("San Francisco, CA", Fixtures.san_francisco);
    ("Invalid coordinates (should fail)", Fixtures.invalid_latitude) ].

(** [test_soil_carbon_endpoint()], given what [requests.post] does with
    each body. *)
Definition test_soil_carbon_endpoint
           (requests_post : RequestBody -> outcome http_response)
  : list printed :=
  flat_map (fun test_case =>
              report (fst test_case) (requests_post (snd test_case)))
           test_cases.

End TestApi.

(** * Properties *)

Import Main.
Local Open Scope string_scope.
Local Open Scope float_scope.

(** ** The order of binary64 numbers *)

Section SpecOrder.
Local Open Scope Z_scope.

Local Ltac order_cases :=
  repeat match goal with
         | |- context [Z.compare ?a ?b] =>
             destruct (Z.compare_spec a b)
         | |- context [Pos.compare_cont Eq ?a ?b] =>
             change (Pos.compare_cont Eq a b) with (Pos.compare a b);
             destruct (Pos.compare_spec a b)
         | H : context [Z.compare ?a ?b] |- _ =>
             destruct (Z.compare_spec a b)
         | H : context [Pos.compare_cont Eq ?a ?b] |- _ =>
             change (Pos.compare_cont Eq a b) with (Pos.compare a b) in H;
             destruct (Pos.compare_spec a b)
         end;
  simpl in *; try reflexivity; try discriminate; try lia.

Lemma SFleb_trans a b c :
  SFleb a b = true -> SFleb b c = true -> SFleb a c = true.
Proof.
  unfold SFleb.
  destruct a as [sa|sa| |sa ma ea], b as [sb|sb| |sb mb eb],
           c as [sc|sc| |sc mc ec]; simpl;
    try discriminate; try reflexivity;
    try (destruct sa); try (destruct sb); try (destruct sc);
    simpl; try discriminate; try reflexivity; intros Hab Hbc; order_cases.
Qed.

Lemma SFleb_total a b :
  SFeqb a a = true -> SFeqb b b = true ->
  SFleb a b = true \/ SFleb b a = true.
Proof.
  unfold SFleb, SFeqb.
  destruct a as [sa|sa| |sa ma ea], b as [sb|sb| |sb mb eb]; simpl;
    try discriminate; auto;
    try (destruct sa); try (destruct sb); simpl; auto; intros _ _.
  all: destruct (Z.compare_spec ea eb); auto;
    destruct (Z.compare_spec eb ea); auto; try lia;
    change (Pos.compare_cont Eq ma mb) with (Pos.compare ma mb);
    change (Pos.compare_cont Eq mb ma) with (Pos.compare mb ma);
    destruct (Pos.compare_spec ma mb); simpl; auto;
    destruct (Pos.compare_spec mb ma); simpl; auto; lia.
Qed.

Lemma SFleb_defined a b :
  SFleb a b = true -> SFeqb a a = true /\ SFeqb b b = true.
Proof.
  unfold SFleb, SFeqb.
  destruct a as [sa|sa| |sa ma ea], b as [sb|sb| |sb mb eb]; simpl;
    try discriminate; intros _;
    try (destruct sa); try (destruct sb); simpl; auto;
    rewrite ?Z.compare_refl, ?Pos.compare_cont_refl; auto.
Qed.

End SpecOrder.

Lemma float_leb_trans x y z :
  (x <=? y) = true -> (y <=? z) = true -> (x <=? z) = true.
Proof. rewrite !FloatAxioms.leb_spec. apply SFleb_trans. Qed.

Lemma float_leb_total x y :
  is_nan x = false -> is_nan y = false ->
  (x <=? y) = true \/ (y <=? x) = true.
Proof.
  unfold is_nan.
  rewrite !FloatAxioms.eqb_spec, !FloatAxioms.leb_spec, !negb_false_iff.
  apply SFleb_total.
Qed.

(** A comparison that holds involves no NaN. *)
Lemma float_leb_defined x y :
  (x <=? y) = true -> is_nan x = false /\ is_nan y = false.
Proof.
  unfold is_nan.
  rewrite !FloatAxioms.eqb_spec, !FloatAxioms.leb_spec, !negb_false_iff.
  apply SFleb_defined.
Qed.

(** A NaN is within no bounds. *)
Lemma nan_is_out_of_bounds lo v hi : is_nan v = true -> between lo v hi = false.
Proof.
  intros Hnan. unfold between.
  destruct (lo <=? v) eqn:Hle; [|reflexivity].
  apply float_leb_defined in Hle as [_ Hv]. congruence.
Qed.

(** ** Finite numbers *)

Lemma is_finite_spec x : is_finite x = Ieee.SF_is_finite (Prim2SF x).
Proof.
  unfold is_finite, is_nan, is_infinity.
  rewrite !FloatAxioms.eqb_spec, abs_spec.
  replace (Prim2SF infinity) with (S754_infinity false) by reflexivity.
  destruct (Prim2SF x) as [s|s| |s m e]; try reflexivity.
  - destruct s; reflexivity.
  - unfold SFeqb, SFcompare, SFabs.
    rewrite Z.compare_refl, Pos.compare_cont_refl. destruct s; reflexivity.
Qed.

(** What lies between two finite bounds is finite. *)
Lemma between_is_finite lo v hi :
  is_finite lo = true -> is_finite hi = true ->
  between lo v hi = true -> is_finite v = true.
Proof.
  unfold between. rewrite !is_finite_spec, !FloatAxioms.leb_spec.
  intros Hlo Hhi H. apply andb_true_iff in H as [H1 H2]. revert Hlo Hhi H1 H2.
  destruct (Prim2SF v) as [s|s| |s m e]; try reflexivity;
    destruct (Prim2SF lo) as [sl|sl| |sl ml el]; try discriminate;
    destruct (Prim2SF hi) as [sh|sh| |sh mh eh]; try discriminate;
    destruct s; discriminate.
Qed.

Section Division.
Local Open Scope Z_scope.

Lemma digits2_pos_size p : digits2_pos p = Pos.size p.
Proof. induction p; simpl; congruence. Qed.

Lemma Zdigits2_nonneg m : 0 <= Zdigits2 m.
Proof. destruct m; simpl; lia. Qed.

Lemma Zdigits2_upper m : 0 <= m -> m < 2 ^ Zdigits2 m.
Proof.
  destruct m as [|p|p]; simpl; try lia. intros _.
  rewrite digits2_pos_size.
  pose proof (Pos.size_gt p) as H.
  apply Pos2Z.pos_lt_pos in H. rewrite Pos2Z.inj_pow in H. exact H.
Qed.

Lemma Zdigits2_le m k : 0 <= m -> 0 <= k -> m < 2 ^ k -> Zdigits2 m <= k.
Proof.
  destruct m as [|p|p]; simpl; try lia. intros _ Hk H.
  rewrite digits2_pos_size.
  destruct (Z_lt_le_dec k (Z.pos (Pos.size p))) as [Hlt|]; [|assumption].
  exfalso.
  pose proof (Pos.size_le p) as Hle.
  apply Pos2Z.pos_le_pos in Hle. rewrite Pos2Z.inj_pow in Hle.
  rewrite (Pos2Z.inj_xO p) in Hle.
  assert (Hpow : 2 ^ (k + 1) <= 2 ^ Z.pos (Pos.size p))
    by (apply Z.pow_le_mono_r; lia).
  rewrite Z.pow_add_r in Hpow by lia. change (2 ^ 1) with 2 in Hpow. lia.
Qed.

Lemma shr_1_digits mrs :
  0 <= shr_m mrs ->
  0 <= shr_m (shr_1 mrs) /\
  Zdigits2 (shr_m (shr_1 mrs)) = Z.max 0 (Zdigits2 (shr_m mrs) - 1).
Proof.
  destruct mrs as [m r s].
  destruct m as [|[p|p|]|p]; unfold shr_1; cbn [shr_m Zdigits2 digits2_pos];
    rewrite ?Pos2Z.inj_succ; lia.
Qed.

Lemma iter_shr_1_digits p : forall mrs,
  0 <= shr_m mrs ->
  0 <= shr_m (SpecFloat.iter_pos shr_1 p mrs) /\
  Zdigits2 (shr_m (SpecFloat.iter_pos shr_1 p mrs))
  = Z.max 0 (Zdigits2 (shr_m mrs) - Z.pos p).
Proof.
  induction p as [p IH|p IH|]; intros mrs Hm; simpl.
  - destruct (shr_1_digits mrs Hm) as [H1 E1].
    destruct (IH _ H1) as [H2 E2]. destruct (IH _ H2) as [H3 E3].
    split; [assumption|]. rewrite E3, E2, E1. lia.
  - destruct (IH _ Hm) as [H2 E2]. destruct (IH _ H2) as [H3 E3].
    split; [assumption|]. rewrite E3, E2. lia.
  - apply shr_1_digits. assumption.
Qed.

Lemma fexp_le t : t <= 1024 -> fexp prec emax t <= 971.
Proof. unfold fexp, emin, prec, emax. lia. Qed.

Lemma shr_fexp_facts m e l :
  0 <= m ->
  0 <= shr_m (fst (shr_fexp prec emax m e l)) /\
  snd (shr_fexp prec emax m e l)
  = Z.max e (fexp prec emax (Zdigits2 m + e)) /\
  Zdigits2 (shr_m (fst (shr_fexp prec emax m e l)))
  + snd (shr_fexp prec emax m e l)
  <= Z.max (Zdigits2 m + e) (snd (shr_fexp prec emax m e l)).
Proof.
  intros Hm. unfold shr_fexp, shr.
  assert (Hrec : shr_m (shr_record_of_loc m l) = m)
    by (destruct l as [|[| |]]; reflexivity).
  destruct (fexp prec emax (Zdigits2 m + e) - e) as [|n|n] eqn:Hn; simpl.
  - rewrite Hrec. repeat split; lia.
  - destruct (iter_shr_1_digits n (shr_record_of_loc m l)) as [H1 E1];
      [rewrite Hrec; assumption|].
    rewrite Hrec in E1. repeat split; try assumption; lia.
  - rewrite Hrec. repeat split; lia.
Qed.

Lemma round_nearest_even_digits m l :
  0 <= m ->
  0 <= round_nearest_even m l /\
  Zdigits2 (round_nearest_even m l) <= Zdigits2 m + 1.
Proof.
  intros Hm.
  assert (Hs : 0 <= m + 1 /\ Zdigits2 (m + 1) <= Zdigits2 m + 1).
  { split; [lia|]. pose proof (Zdigits2_nonneg m).
    apply Zdigits2_le; try lia.
    pose proof (Zdigits2_upper m Hm). rewrite Z.pow_add_r by lia.
    change (2 ^ 1) with 2. lia. }
  unfold round_nearest_even.
  destruct l as [|[| |]]; try (split; lia); try exact Hs.
  destruct (Z.even m); [split; lia|exact Hs].
Qed.

(** Rounding a magnitude below 2 ^ 1023 does not overflow. *)
Lemma binary_round_aux_finite sx mx ex lx :
  0 <= mx -> ex <= 971 -> Zdigits2 mx + ex <= 1023 ->
  Ieee.SF_is_finite (binary_round_aux prec emax sx mx ex lx) = true.
Proof.
  intros Hm He Hd. unfold binary_round_aux.
  pose proof (shr_fexp_facts mx ex lx Hm) as H1.
  destruct (shr_fexp prec emax mx ex lx) as [mrs' e'] eqn:E1.
  simpl in H1. destruct H1 as (Hm1 & He1 & Hd1).
  destruct (round_nearest_even_digits
              (shr_m mrs') (loc_of_shr_record mrs') Hm1) as [Hm2 Hd2].
  pose proof (shr_fexp_facts _ e' loc_Exact Hm2) as H2.
  destruct (shr_fexp prec emax _ e' loc_Exact) as [mrs'' e''] eqn:E2.
  simpl in H2. destruct H2 as (Hm3 & He3 & Hd3).
  destruct (shr_m mrs'') as [|p|p]; try reflexivity; [|lia].
  assert (He' : e' <= 971).
  { rewrite He1. apply Z.max_lub; [assumption|]. apply fexp_le. lia. }
  assert (He'' : e'' <= 971).
  { rewrite He3. apply Z.max_lub; [assumption|]. apply fexp_le. lia. }
  replace (e'' <=? emax - prec) with true; [reflexivity|].
  symmetry. apply Z.leb_le. unfold emax, prec. lia.
Qed.

Lemma SFdiv_by_111_finite s m e :
  SpecFloat.bounded prec emax m e = true ->
  Ieee.SF_is_finite
    (SFdiv prec emax (S754_finite s m e)
           (S754_finite false 7810930603720704 (-46))) = true.
Proof.
  unfold SpecFloat.bounded, canonical_mantissa. intros Hb.
  apply andb_true_iff in Hb as [Hc He].
  apply Z.eqb_eq in Hc. apply Z.leb_le in He.
  unfold fexp, emin, prec, emax in Hc, He.
  set (d1 := Z.pos (digits2_pos m)) in *.
  assert (Hd1 : 1 <= d1 <= 53) by (unfold d1; lia).
  assert (Hm : Z.pos m < 2 ^ d1) by (apply (Zdigits2_upper (Z.pos m)); lia).
  unfold SFdiv, SFdiv_core_binary.
  change (Zdigits2 (Z.pos m)) with d1.
  change (Zdigits2 7810930603720704) with 53.
  set (e' := Z.min (fexp prec emax (d1 + e - (53 + -46))) (e - -46)).
  assert (He' : e' <= 964 /\ e' <= e + 46)
    by (unfold e', fexp, emin, prec, emax; lia).
  set (sh := e - -46 - e').
  assert (Hsh : 0 <= sh) by (unfold sh; lia).
  set (m' := match sh with
             | 0 => Z.pos m
             | Z.pos _ => Z.shiftl (Z.pos m) sh
             | Z.neg _ => 0
             end).
  assert (Hm' : 0 <= m' < 2 ^ (d1 + sh)).
  { unfold m'. destruct sh as [|p|p] eqn:Hp; try lia.
    - rewrite Z.add_0_r. lia.
    - rewrite Z.shiftl_mul_pow2, Z.pow_add_r by lia.
      assert (0 < 2 ^ Z.pos p) by (apply Z.pow_pos_nonneg; lia). nia. }
  destruct (Z.div_eucl m' 7810930603720704) as [q r] eqn:Hdiv.
  assert (Hq : q = m' / 7810930603720704)
    by (unfold Z.div; rewrite Hdiv; reflexivity).
  assert (Hq0 : 0 <= q) by (rewrite Hq; apply Z.div_pos; lia).
  assert (Hqd : Zdigits2 q <= Z.max 0 (d1 + sh - 52)).
  { destruct (Z_lt_le_dec (d1 + sh) 52) as [Hsmall|Hbig].
    - assert (Hpow : 2 ^ (d1 + sh) <= 2 ^ 52)
        by (apply Z.pow_le_mono_r; lia).
      change (2 ^ 52) with 4503599627370496 in Hpow.
      rewrite Hq, Z.div_small by lia. simpl. lia.
    - rewrite Z.max_r by lia. apply Zdigits2_le; try lia.
      rewrite Hq. apply Z.div_lt_upper_bound; [lia|].
      replace (d1 + sh) with (52 + (d1 + sh - 52)) in Hm' by lia.
      rewrite Z.pow_add_r in Hm' by lia.
      change (2 ^ 52) with 4503599627370496 in Hm'.
      assert (0 < 2 ^ (d1 + sh - 52)) by (apply Z.pow_pos_nonneg; lia).
      nia. }
  apply binary_round_aux_finite; lia.
Qed.

End Division.

(** Dividing a finite number by 111 gives a finite number: the degrees
    of the buffer are finite whenever the kilometers are. *)
Lemma div_111_finite x : is_finite x = true -> is_finite (x / 111) = true.
Proof.
  rewrite !is_finite_spec, div_spec.
  replace (Prim2SF 111) with (S754_finite false 7810930603720704 (-46))
    by reflexivity.
  pose proof (Prim2SF_valid x) as Hvalid.
  destruct (Prim2SF x) as [s|s| |s m e]; try discriminate; intros _.
  - reflexivity.
  - apply SFdiv_by_111_finite. exact Hvalid.
Qed.

(** ** Sorting by [distance_m] *)

Lemma key_le_total a b : key_le a b = false -> key_le b a = true.
Proof.
  unfold key_le. intros H. apply orb_false_iff in H as [Hb Hab].
  destruct (is_nan a) eqn:Ha; [reflexivity|]. simpl.
  destruct (float_leb_total a b Ha Hb) as [H|H]; congruence.
Qed.

Lemma key_le_trans a b c :
  key_le a b = true -> key_le b c = true -> key_le a c = true.
Proof.
  unfold key_le. intros Hab Hbc.
  destruct (is_nan c) eqn:Hc; [reflexivity|]. simpl in *.
  destruct (float_leb_defined _ _ Hbc) as [Hb _].
  rewrite Hb in Hab. simpl in Hab. eapply float_leb_trans; eassumption.
Qed.

(** On keys that are numbers, [key_le] is the plain comparison. *)
Lemma key_le_number a b : is_nan b = false -> key_le a b = (a <=? b).
Proof. unfold key_le. intros ->. reflexivity. Qed.

Lemma precedes_key_le rank p q :
  precedes rank p q = true -> key_le (snd p) (snd q) = true.
Proof. unfold precedes. intros H. now apply andb_true_iff in H. Qed.

(** Whatever the ranks, of two rows one goes before the other by key. *)
Lemma precedes_false rank p q :
  precedes rank p q = false -> key_le (snd q) (snd p) = true.
Proof.
  unfold precedes. destruct (key_le (snd p) (snd q)) eqn:Hpq; simpl.
  - destruct (key_le (snd q) (snd p)); [reflexivity|discriminate].
  - intros _. now apply key_le_total.
Qed.

Lemma insert_by_distance_In rank p q l :
  In q (insert_by_distance rank p l) <-> q = p \/ In q l.
Proof.
  induction l as [|x l IH]; simpl.
  - intuition.
  - destruct (precedes rank p x); simpl; rewrite ?IH; intuition.
Qed.

Lemma sort_by_distance_In rank q l :
  In q (sort_by_distance rank l) <-> In q l.
Proof.
  induction l as [|x l IH]; simpl.
  - tauto.
  - rewrite insert_by_distance_In, IH. intuition.
Qed.

Lemma sort_values_In E q l : In q (sort_values E l) <-> In q l.
Proof. apply sort_by_distance_In. Qed.

Lemma insert_by_distance_sorted rank p l :
  StronglySorted by_distance l ->
  StronglySorted by_distance (insert_by_distance rank p l).
Proof.
  induction 1 as [|x l Hs IH Hx]; simpl.
  - repeat constructor.
  - destruct (precedes rank p x) eqn:Hpx.
    + apply precedes_key_le in Hpx.
      constructor; [constructor; assumption|].
      constructor; [exact Hpx|].
      rewrite Forall_forall in Hx |- *. intros y Hy.
      unfold by_distance. eapply key_le_trans; [exact Hpx|]. now apply Hx.
    + apply precedes_false in Hpx.
      constructor; [exact IH|].
      rewrite Forall_forall in Hx |- *. intros y Hy.
      apply insert_by_distance_In in Hy as [->|Hy].
      * exact Hpx.
      * now apply Hx.
Qed.

Lemma sort_by_distance_sorted rank l :
  StronglySorted by_distance (sort_by_distance rank l).
Proof.
  induction l as [|x l IH]; simpl.
  - constructor.
  - now apply insert_by_distance_sorted.
Qed.

Lemma sort_values_sorted E l : StronglySorted by_distance (sort_values E l).
Proof. apply sort_by_distance_sorted. Qed.

(** The first row of the sorted frame has the least key of the frame,
    however rows of equal key are arranged. *)
Lemma sort_values_head_least E l p rest :
  sort_values E l = p :: rest ->
  In p l /\ forall q, In q l -> key_le (snd p) (snd q) = true.
Proof.
  intros Hs. split.
  - apply (sort_values_In E). rewrite Hs. now left.
  - intros q Hq. apply (sort_values_In E) in Hq. rewrite Hs in Hq.
    pose proof (sort_values_sorted E l) as Hsorted. rewrite Hs in Hsorted.
    inversion Hsorted as [|? ? _ Hall]; subst.
    destruct Hq as [<-|Hq].
    + unfold key_le. destruct (is_nan (snd p)) eqn:Hn; [reflexivity|].
      simpl. destruct (float_leb_total _ _ Hn Hn); assumption.
    + rewrite Forall_forall in Hall. now apply Hall.
Qed.

Lemma sort_values_nonempty E p l : sort_values E (p :: l) <> [].
Proof.
  intros H.
  assert (Hin : In p (sort_values E (p :: l)))
    by (apply sort_values_In; now left).
  rewrite H in Hin. contradiction.
Qed.

(** ** The order of the spatial index *)

Lemma insert_by_rank_In rank x y l :
  In y (insert_by_rank rank x l) <-> y = x \/ In y l.
Proof.
  induction l as [|z l IH]; simpl.
  - intuition.
  - destruct (rank x <=? rank z)%nat; simpl; rewrite ?IH; intuition.
Qed.

(** The index lists the matching rows, all of them and no other. *)
Lemma order_by_rank_In rank y l : In y (order_by_rank rank l) <-> In y l.
Proof.
  induction l as [|x l IH]; simpl.
  - tauto.
  - rewrite insert_by_rank_In, IH. intuition.
Qed.

(** ** Validation *)

Lemma check_bounds_nil name lo hi v :
  check_bounds name lo hi v = [] <-> between lo v hi = true.
Proof.
  unfold check_bounds, between.
  destruct (lo <=? v), (v <=? hi); simpl; split; intros H;
    try reflexivity; discriminate.
Qed.

Lemma check_bounds_out name lo hi v :
  between lo v hi = false ->
  exists c, check_bounds name lo hi v = [ {| loc := name; violated := c |} ].
Proof.
  unfold check_bounds, between.
  destruct (lo <=? v), (v <=? hi); simpl; intros H;
    try discriminate; eexists; reflexivity.
Qed.

(** What an accepted body looks like. *)
Lemma validate_request_accepts b req :
  validate_request b = inr req <->
  between (-90) (json_latitude b) 90 = true /\
  between (-180) (json_longitude b) 180 = true /\
  fst (validate_max_distance_km (json_max_distance_km b)) = [] /\
  req = {| latitude := json_latitude b;
           longitude := json_longitude b;
           max_distance_km :=
             snd (validate_max_distance_km (json_max_distance_km b)) |}.
Proof.
  unfold validate_request.
  destruct (validate_max_distance_km (json_max_distance_km b)) as [errs dist].
  simpl.
  rewrite <- (check_bounds_nil "latitude"), <- (check_bounds_nil "longitude").
  split.
  - destruct (_ ++ _ ++ _)%list eqn:Hall; [|discriminate].
    intros [= <-].
    apply app_eq_nil in Hall as [Hlat Hrest].
    apply app_eq_nil in Hrest as [Hlon Hdist]. auto.
  - intros (-> & -> & -> & ->). reflexivity.
Qed.

(** The radius of an accepted request, when it has one, is finite. *)
Lemma validated_radius_finite b req r :
  validate_request b = inr req ->
  max_distance_km req = Some r ->
  is_finite r = true.
Proof.
  intros Hv Hr.
  apply validate_request_accepts in Hv as (_ & _ & Herrs & ->).
  simpl in Hr. destruct (json_max_distance_km b) as [| |v]; simpl in *.
  - injection Hr as <-. reflexivity.
  - discriminate.
  - injection Hr as <-. apply check_bounds_nil in Herrs.
    now apply (between_is_finite 0.1 v 1000).
Qed.

(** ** The lookup, case by case *)

Lemma buffer_bounds_returns E lon lat r :
  is_finite r = true ->
  exists bbox, buffer_bounds E lon lat (r / 111) = Returned bbox.
Proof.
  intros Hr. unfold buffer_bounds. rewrite (div_111_finite r Hr).
  destruct (0 <? r / 111); eexists; reflexivity.
Qed.

(** No row is inside the bounds of an empty polygon. *)
Lemma in_bbox_nan row : in_bbox (nan, nan, nan, nan) row = false.
Proof.
  unfold in_bbox, between.
  destruct (nan <=? longitude_point_wgs84_dd row) eqn:Hle; [|reflexivity].
  apply float_leb_defined in Hle as [Hnan _]. discriminate.
Qed.

(** What it takes for a row to be a possible match. *)
Lemma possible_matches_In E lat lon r props row :
  In row (possible_matches E lat lon r props) <->
  In row props /\
  notnull (latitude_point_wgs84_dd row) = true /\
  notnull (longitude_point_wgs84_dd row) = true /\
  is_finite (r / 111) = true /\
  (0 <? r / 111) = true /\
  between (lon - r / 111) (longitude_point_wgs84_dd row) (lon + r / 111)
  = true /\
  between (lat - r / 111) (latitude_point_wgs84_dd row) (lat + r / 111)
  = true.
Proof.
  unfold possible_matches, buffer_bounds, sindex_intersection.
  destruct (is_finite (r / 111)); [|simpl; intuition discriminate].
  destruct (0 <? r / 111).
  - rewrite order_by_rank_In, filter_In. unfold dropna.
    rewrite filter_In. unfold in_bbox. rewrite !andb_true_iff. tauto.
  - rewrite order_by_rank_In, filter_In, in_bbox_nan.
    intuition discriminate.
Qed.

Lemma nearby_In_iff E lat lon r props p :
  In p (nearby E lat lon r props) <->
  In (fst p) (possible_matches E lat lon r props) /\
  snd p = distance E
            (to_crs_3857 E (longitude_point_wgs84_dd (fst p),
                            latitude_point_wgs84_dd (fst p)))
            (to_crs_3857 E (lon, lat)) /\
  (snd p <=? r * 1000) = true.
Proof.
  unfold nearby, with_distance_m. rewrite filter_In, in_map_iff. split.
  - intros [(row & <- & Hrow) Hle]. simpl in *. auto.
  - intros (Hrow & Hd & Hle). split; [|exact Hle].
    exists (fst p). split; [|exact Hrow].
    destruct p as [row d]. simpl in *. now subst d.
Qed.

Lemma nearby_In E lat lon r props p :
  In p (nearby E lat lon r props) ->
  (snd p <=? r * 1000) = true /\
  In (fst p) (possible_matches E lat lon r props) /\
  snd p = distance E
            (to_crs_3857 E (longitude_point_wgs84_dd (fst p),
                            latitude_point_wgs84_dd (fst p)))
            (to_crs_3857 E (lon, lat)).
Proof. rewrite nearby_In_iff. tauto. Qed.

Lemma nearby_nil_of_no_match E lat lon r props :
  possible_matches E lat lon r props = [] -> nearby E lat lon r props = [].
Proof. unfold nearby, with_distance_m. intros ->. reflexivity. Qed.

(** Rows within the radius mean a buffer that could be built. *)
Lemma nearby_cons_buffer E lat lon r props p l :
  nearby E lat lon r props = p :: l ->
  exists bbox, buffer_bounds E lon lat (r / 111) = Returned bbox.
Proof.
  intros Hn.
  destruct (buffer_bounds E lon lat (r / 111)) as [bbox|e] eqn:Hb;
    [now exists bbox|].
  unfold nearby, with_distance_m, possible_matches in Hn. rewrite Hb in Hn.
  discriminate.
Qed.

Lemma lookup_body_no_data_in_bounds E lat lon r props bbox :
  get_properties E = Returned props ->
  buffer_bounds E lon lat (r / 111) = Returned bbox ->
  nearby E lat lon r props = [] ->
  lookup_body E lat lon (Some r) = Returned (Message (no_data_message E r)).
Proof.
  intros Hp Hb Hn. unfold lookup_body. rewrite Hp, Hn, Hb.
  destruct (possible_matches E lat lon r props); reflexivity.
Qed.

Lemma lookup_body_no_data E lat lon r props :
  get_properties E = Returned props ->
  is_finite r = true ->
  nearby E lat lon r props = [] ->
  lookup_body E lat lon (Some r) = Returned (Message (no_data_message E r)).
Proof.
  intros Hp Hr Hn.
  destruct (buffer_bounds_returns E lon lat r Hr) as [bbox Hb].
  exact (lookup_body_no_data_in_bounds E lat lon r props bbox Hp Hb Hn).
Qed.

(** A radius whose buffer cannot be built makes the lookup raise. *)
Lemma lookup_body_buffer_raises E lat lon r props e :
  get_properties E = Returned props ->
  buffer_bounds E lon lat (r / 111) = Raised e ->
  lookup_body E lat lon (Some r) = Raised e.
Proof. intros Hp Hb. unfold lookup_body. now rewrite Hp, Hb. Qed.

Lemma lookup_body_nearest E lat lon r props nearest rest :
  get_properties E = Returned props ->
  sort_values E (nearby E lat lon r props) = nearest :: rest ->
  lookup_body E lat lon (Some r) =
  match first_carbon (fst nearest) with
  | None => Returned (Message (no_carbon_message E r))
  | Some carbon_val => Returned (Data (sample_dict nearest carbon_val))
  end.
Proof.
  intros Hp Hs. unfold lookup_body. rewrite Hp, Hs.
  destruct (nearby E lat lon r props) as [|p l] eqn:Hn; [discriminate|].
  destruct (nearby_cons_buffer E lat lon r props p l Hn) as [bbox ->].
  destruct (possible_matches E lat lon r props) eqn:Hpm; [|reflexivity].
  rewrite (nearby_nil_of_no_match E _ _ _ _ Hpm) in Hn. discriminate.
Qed.

(** Every way the lookup can hand back a sample. *)
Lemma find_returns_data E lat lon m d :
  find_soil_carbon_optimized E lat lon m = Returned (Data d) ->
  exists r props nearest rest carbon_val,
    m = Some r /\
    get_properties E = Returned props /\
    sort_values E (nearby E lat lon r props) = nearest :: rest /\
    first_carbon (fst nearest) = Some carbon_val /\
    d = sample_dict nearest carbon_val.
Proof.
  unfold find_soil_carbon_optimized, lookup_body.
  destruct (get_properties E) as [props|e]; [|discriminate].
  destruct m as [r|]; [|discriminate].
  destruct (buffer_bounds E lon lat (r / 111)); [|discriminate].
  destruct (possible_matches E lat lon r props); [discriminate|].
  destruct (nearby E lat lon r props) eqn:Hn; [discriminate|]. rewrite <- Hn.
  destruct (sort_values E (nearby E lat lon r props))
    as [|nearest rest] eqn:Hs; [discriminate|].
  destruct (first_carbon (fst nearest)) as [c|] eqn:Hc; [|discriminate].
  intros [= <-]. exists r, props, nearest, rest, c. auto.
Qed.

(** A reading picked by the scan is a number, taken from one of the
    three candidate fields. *)
Lemma first_carbon_some row c :
  first_carbon row = Some c ->
  notnull c = true /\
  (c = oc_iso_10694_w_pct row \/
   c = oc_usda_c1059_w_pct row \/
   c = oc_usda_c729_w_pct row).
Proof.
  unfold first_carbon.
  destruct (notnull (oc_iso_10694_w_pct row)) eqn:H1;
    [intros [= <-]; auto|].
  destruct (notnull (oc_usda_c1059_w_pct row)) eqn:H2;
    [intros [= <-]; auto|].
  destruct (notnull (oc_usda_c729_w_pct row)) eqn:H3;
    [intros [= <-]; auto|discriminate].
Qed.

Lemma first_carbon_none row :
  first_carbon row = None <->
  notnull (oc_iso_10694_w_pct row) = false /\
  notnull (oc_usda_c1059_w_pct row) = false /\
  notnull (oc_usda_c729_w_pct row) = false.
Proof.
  unfold first_carbon.
  destruct (notnull (oc_iso_10694_w_pct row)),
           (notnull (oc_usda_c1059_w_pct row)),
           (notnull (oc_usda_c729_w_pct row));
    split; intros H; try discriminate; auto;
    destruct H as (? & ? & ?); discriminate.
Qed.

(** ** The handler on validated requests *)

Lemma post_soil_carbon_accepted E b req :
  validate_request b = inr req ->
  post_soil_carbon E b = get_soil_carbon E req.
Proof. unfold post_soil_carbon. intros ->. reflexivity. Qed.

Lemma validated_coordinates b req :
  validate_request b = inr req ->
  between (-90) (latitude req) 90 = true /\
  between (-180) (longitude req) 180 = true.
Proof.
  intros H. apply validate_request_accepts in H as (Hlat & Hlon & _ & ->).
  simpl. auto.
Qed.

Lemma get_soil_carbon_in_range E req :
  between (-90) (latitude req) 90 = true ->
  between (-180) (longitude req) 180 = true ->
  get_soil_carbon E req =
  let call := {| call_lat := latitude req;
                 call_lon := longitude req;
                 call_max_distance_km := max_distance_km req |} in
  match find_soil_carbon_optimized E (latitude req) (longitude req)
                                   (max_distance_km req) with
  | Returned (Message result) =>
      (Http200 {| success := false; message := result; data := None |}, [call])
  | Returned (Data result) =>
      (Http200 {| success := true;
                  message := "Soil carbon data found successfully";
                  data := Some result |}, [call])
  | Raised e =>
      (HttpError 500 (DetailText ("Internal server error: " ++ e)), [call])
  end.
Proof. unfold get_soil_carbon. intros -> ->. reflexivity. Qed.

(** ** Selection of the sample *)

(** C1 (as the code behaves): the lookup takes the nearest row within the
    radius whatever its readings, and looks for carbon in that row only.
    When that row has no reading the caller gets the no-carbon message,
    even though a row [q] farther away but still within the radius has
    one. *)
Theorem nearest_without_reading_hides_farther_reading
        E lat lon r props nearest rest q c :
  get_properties E = Returned props ->
  sort_values E (nearby E lat lon r props) = nearest :: rest ->
  first_carbon (fst nearest) = None ->
  In q (nearby E lat lon r props) ->
  first_carbon (fst q) = Some c ->
  find_soil_carbon_optimized E lat lon (Some r)
  = Returned (Message (no_carbon_message E r)).
Proof.
  intros Hp Hs Hnone _ _. unfold find_soil_carbon_optimized.
  rewrite (lookup_body_nearest E lat lon r props nearest rest Hp Hs), Hnone.
  reflexivity.
Qed.

(** The table holds a sample with 1.5 % carbon 2.2 km from the query and
    a sample without readings 1.1 km from it; a 10 km search answers that
    no carbon data is available within 10 km. *)
Lemma nearest_without_reading_hides_farther_reading_witness :
  sort_values (Fixtures.env_of Fixtures.masking_table)
              (nearby (Fixtures.env_of Fixtures.masking_table) 0 0 10
                      Fixtures.masking_table)
  = [(Fixtures.bare_sample, Fixtures.from_origin Fixtures.bare_sample);
     (Fixtures.rich_sample, Fixtures.from_origin Fixtures.rich_sample)] /\
  first_carbon Fixtures.bare_sample = None /\
  first_carbon Fixtures.rich_sample = Some 1.5 /\
  find_soil_carbon_optimized (Fixtures.env_of Fixtures.masking_table)
                             0 0 (Some 10)
  = Returned (Message "No organic carbon data available within 10.0 km").
Proof.
  assert (Hs : sort_values (Fixtures.env_of Fixtures.masking_table)
                           (nearby (Fixtures.env_of Fixtures.masking_table)
                                   0 0 10 Fixtures.masking_table)
               = [(Fixtures.bare_sample, Fixtures.from_origin Fixtures.bare_sample);
                  (Fixtures.rich_sample, Fixtures.from_origin Fixtures.rich_sample)])
    by (vm_compute; reflexivity).
  split; [exact Hs|]. split; [reflexivity|]. split; [reflexivity|].
  apply (nearest_without_reading_hides_farther_reading
           (Fixtures.env_of Fixtures.masking_table) 0 0 10
           Fixtures.masking_table
           (Fixtures.bare_sample, Fixtures.from_origin Fixtures.bare_sample)
           [(Fixtures.rich_sample, Fixtures.from_origin Fixtures.rich_sample)]
           (Fixtures.rich_sample, Fixtures.from_origin Fixtures.rich_sample)
           1.5).
  - reflexivity.
  - exact Hs.
  - reflexivity.
  - vm_compute. left. reflexivity.
  - reflexivity.
Defined.

(** The same table seen through the endpoint, with the default radius. *)
Example masked_reading_answer :
  post_soil_carbon (Fixtures.env_of Fixtures.masking_table)
                   (Fixtures.origin Omitted)
  = (Http200 {| success := false;
                message := "No organic carbon data available within 10.0 km";
                data := None |},
     [ {| call_lat := 0; call_lon := 0; call_max_distance_km := Some 10 |} ]).
Proof. vm_compute. reflexivity. Qed.

(** What does hold of a successful lookup: the sample it returns is the
    first row of the sorted frame, and the reported carbon value is a
    number read from one of that row's three candidate fields. *)
Lemma successful_lookup_has_reading E lat lon m d :
  find_soil_carbon_optimized E lat lon m = Returned (Data d) ->
  exists nearest c,
    d = sample_dict nearest c /\
    first_carbon (fst nearest) = Some c /\
    notnull c = true.
Proof.
  intros H.
  apply find_returns_data in H as (r & props & nearest & rest & c & H).
  destruct H as (_ & _ & _ & Hc & ->).
  exists nearest, c. repeat split; try assumption.
  now apply first_carbon_some in Hc.
Qed.



(** ** Answers without data *)



(** The second case on a concrete table: the only row within 10 km has no
    reading. *)
Example no_carbon_answer :
  post_soil_carbon (Fixtures.env_of [Fixtures.remote_sample; Fixtures.bare_sample])
                   (Fixtures.origin Omitted)
  = (Http200 {| success := false;
                message := "No organic carbon data available within 10.0 km";
                data := None |},
     [ {| call_lat := 0; call_lon := 0; call_max_distance_km := Some 10 |} ]).
Proof. vm_compute. reflexivity. Qed.

(** A row beyond the radius in every respect leaves [nearby] empty. *)
Lemma nearby_nil_of_no_row_within_radius E lat lon r props :
  (forall row, In row (dropna props) ->
     (distance E (to_crs_3857 E (longitude_point_wgs84_dd row,
                                 latitude_point_wgs84_dd row))
                 (to_crs_3857 E (lon, lat)) <=? r * 1000) = false) ->
  nearby E lat lon r props = [].
Proof.
  intros Hfar.
  destruct (nearby E lat lon r props) as [|p l] eqn:Hn; [reflexivity|].
  assert (Hp : In p (nearby E lat lon r props)) by (rewrite Hn; now left).
  apply nearby_In in Hp as (Hle & Hin & Hd).
  apply possible_matches_In in Hin as (Hin & Hlat & Hlon & _).
  assert (Hdrop : In (fst p) (dropna props)).
  { unfold dropna. apply filter_In. now rewrite Hlat, Hlon. }
  rewrite Hd, (Hfar _ Hdrop) in Hle. discriminate.
Qed.

(** ** Rejection of coordinates out of range *)

(** The report can be rendered exactly when the body carries no infinity
    and no NaN: a number that passed its bounds is finite, and a number
    that is not finite fails them and is echoed. *)
Lemma echoed_inputs_finite b :
  forallb is_finite (echoed_inputs b) = Ieee.all_finite b.
Proof.
  unfold echoed_inputs, Ieee.all_finite, Ieee.numbers.
  rewrite !forallb_app.
  assert (Hecho : forall name lo hi v,
             is_finite lo = true -> is_finite hi = true ->
             forallb is_finite
               match check_bounds name lo hi v with [] => [] | _ :: _ => [v] end
             = is_finite v).
  { intros name lo hi v Hlo Hhi.
    destruct (check_bounds name lo hi v) eqn:Hc; simpl.
    - apply check_bounds_nil in Hc.
      now rewrite (between_is_finite lo v hi Hlo Hhi Hc).
    - now rewrite andb_true_r. }
  rewrite !Hecho by reflexivity.
  destruct (json_max_distance_km b) as [| |v]; simpl;
    rewrite ?Hecho by reflexivity; now rewrite ?andb_true_r.
Qed.

Lemma request_validation_response_finite b errs :
  Ieee.all_finite b = true ->
  request_validation_response b errs = HttpError 422 (DetailErrors errs).
Proof.
  intros H. unfold request_validation_response.
  now rewrite echoed_inputs_finite, H.
Qed.

Lemma request_validation_response_non_finite b errs :
  Ieee.all_finite b = false ->
  request_validation_response b errs = PlainText 500 "Internal Server Error".
Proof.
  intros H. unfold request_validation_response.
  now rewrite echoed_inputs_finite, H.
Qed.

Lemma request_validation_response_cases b errs :
  request_validation_response b errs = HttpError 422 (DetailErrors errs) \/
  request_validation_response b errs = PlainText 500 "Internal Server Error".
Proof.
  unfold request_validation_response.
  destruct (forallb is_finite (echoed_inputs b)); auto.
Qed.

(** A body that carries an infinity or a NaN is never accepted. *)
Lemma non_finite_is_rejected b :
  Ieee.all_finite b = false -> exists errs, validate_request b = inl errs.
Proof.
  intros Hnf. destruct (validate_request b) as [errs|req] eqn:Hv;
    [now exists errs|exfalso].
  apply validate_request_accepts in Hv as (Hlat & Hlon & Herrs & _).
  unfold Ieee.all_finite, Ieee.numbers in Hnf. simpl in Hnf.
  rewrite (between_is_finite (-90) _ 90 eq_refl eq_refl Hlat) in Hnf.
  rewrite (between_is_finite (-180) _ 180 eq_refl eq_refl Hlon) in Hnf.
  destruct (json_max_distance_km b) as [| |v]; simpl in *; try discriminate.
  apply check_bounds_nil in Herrs.
  rewrite (between_is_finite 0.1 v 1000 eq_refl eq_refl Herrs) in Hnf.
  discriminate.
Qed.

(** What the report of a rejected body says about the coordinates. *)
Lemma report_names_coordinates b errs :
  validate_request b = inl errs ->
  (between (-90) (json_latitude b) 90 = false ->
   exists c, In {| loc := "latitude"; violated := c |} errs) /\
  (between (-180) (json_longitude b) 180 = false ->
   exists c, In {| loc := "longitude"; violated := c |} errs).
Proof.
  intros Hv. split.
  - intros Hlat. revert Hv. unfold validate_request.
    destruct (validate_max_distance_km _) as [e d].
    destruct (check_bounds_out "latitude" _ _ _ Hlat) as [c ->].
    simpl. intros [= <-]. exists c. now left.
  - intros Hlon. revert Hv. unfold validate_request.
    destruct (validate_max_distance_km _) as [e d].
    destruct (check_bounds_out "longitude" _ _ _ Hlon) as [c ->].
    destruct (check_bounds "latitude" _ _ _ ++ _)%list eqn:Hall;
      [apply app_eq_nil in Hall as [_ Hall]; discriminate|].
    intros [= <-]. exists c. rewrite <- Hall.
    apply in_or_app. right. now left.
Qed.

(** C3 (as the code behaves): a body whose latitude is outside [-90, 90]
    or whose longitude is outside [-180, 180] never reaches the lookup.
    When every number of the body is finite the answer is a client error
    (422) whose detail names each offending field with the bound it broke.
    When the body carries an infinity or a NaN, as a latitude written
    [1e400] does, the answer is a plain-text 500 "Internal Server Error":
    not a client error, and without a word on the coordinates. *)
Theorem out_of_range_coordinates_with_overflow E b :
  between (-90) (json_latitude b) 90 = false \/
  between (-180) (json_longitude b) 180 = false ->
  snd (post_soil_carbon E b) = [] /\
  (Ieee.all_finite b = true ->
   exists errs,
     post_soil_carbon E b = (HttpError 422 (DetailErrors errs), []) /\
     is_client_error (fst (post_soil_carbon E b)) = true /\
     (between (-90) (json_latitude b) 90 = false ->
      exists c, In {| loc := "latitude"; violated := c |} errs) /\
     (between (-180) (json_longitude b) 180 = false ->
      exists c, In {| loc := "longitude"; violated := c |} errs)) /\
  (Ieee.all_finite b = false ->
   post_soil_carbon E b = (PlainText 500 "Internal Server Error", []) /\
   is_client_error (fst (post_soil_carbon E b)) = false).
Proof.
  intros Hout. unfold post_soil_carbon.
  destruct (validate_request b) as [errs|req] eqn:Hv.
  - split; [reflexivity|]. split.
    + intros Hfin. exists errs.
      rewrite (request_validation_response_finite b errs Hfin).
      destruct (report_names_coordinates b errs Hv) as [Hlat Hlon].
      repeat split; assumption.
    + intros Hnf.
      rewrite (request_validation_response_non_finite b errs Hnf).
      split; reflexivity.
  - apply validate_request_accepts in Hv as (Hlat & Hlon & _).
    destruct Hout; congruence.
Qed.

(** A latitude of [1e400]: out of range, answered with a bare 500. *)
Lemma out_of_range_coordinates_with_overflow_witness :
  (between (-90) (json_latitude Fixtures.overflowing_latitude) 90 = false \/
   between (-180) (json_longitude Fixtures.overflowing_latitude) 180 = false) /\
  Ieee.all_finite Fixtures.overflowing_latitude = false /\
  post_soil_carbon Fixtures.env_offline Fixtures.overflowing_latitude
  = (PlainText 500 "Internal Server Error", []) /\
  is_client_error
    (fst (post_soil_carbon Fixtures.env_offline Fixtures.overflowing_latitude))
  = false.
Proof.
  assert (H : between (-90) (json_latitude Fixtures.overflowing_latitude) 90
              = false) by reflexivity.
  split; [left; exact H|]. split; [reflexivity|].
  apply (out_of_range_coordinates_with_overflow
           Fixtures.env_offline Fixtures.overflowing_latitude).
  - left. exact H.
  - reflexivity.
Defined.

(** The invalid-latitude scenario of [test_api.py], where every number is
    finite. *)
Example invalid_latitude_answer :
  post_soil_carbon Fixtures.env_offline Fixtures.invalid_latitude
  = (HttpError 422
       (DetailErrors [ {| loc := "latitude"; violated := LessThanEqual 90 |} ]),
     []).
Proof. vm_compute. reflexivity. Qed.

(** ** An explicit null radius *)

Lemma find_without_radius_raises E lat lon :
  exists e, find_soil_carbon_optimized E lat lon None = Raised e.
Proof.
  unfold find_soil_carbon_optimized, lookup_body.
  destruct (get_properties E); eexists; reflexivity.
Qed.

(** C9: when the body sets [max_distance_km] to null (and its coordinates
    are in range, so that the request reaches the handler), validation
    accepts the field without applying the bounds, the handler calls the
    lookup with [None], and the answer is a 500 with the generic
    "Internal server error" detail, not a client error. *)
Theorem null_max_distance_is_a_server_error E b :
  json_max_distance_km b = Null ->
  between (-90) (json_latitude b) 90 = true ->
  between (-180) (json_longitude b) 180 = true ->
  validate_max_distance_km (json_max_distance_km b) = ([], None) /\
  validate_request b = inr {| latitude := json_latitude b;
                              longitude := json_longitude b;
                              max_distance_km := None |} /\
  exists e,
    post_soil_carbon E b
    = (HttpError 500 (DetailText ("Internal server error: " ++ e)),
       [ {| call_lat := json_latitude b;
            call_lon := json_longitude b;
            call_max_distance_km := None |} ]) /\
    is_client_error (fst (post_soil_carbon E b)) = false.
Proof.
  intros Hnull Hlat Hlon.
  assert (Hv : validate_request b
               = inr {| latitude := json_latitude b;
                        longitude := json_longitude b;
                        max_distance_km := None |}).
  { apply validate_request_accepts. rewrite Hnull. simpl. auto. }
  rewrite Hnull. split; [reflexivity|]. split; [exact Hv|].
  rewrite (post_soil_carbon_accepted E b _ Hv).
  rewrite (get_soil_carbon_in_range
             E {| latitude := json_latitude b;
                  longitude := json_longitude b;
                  max_distance_km := None |} Hlat Hlon). simpl.
  destruct (find_without_radius_raises E (json_latitude b) (json_longitude b))
    as [e ->].
  exists e. split; reflexivity.
Qed.

Lemma null_max_distance_is_a_server_error_witness :
  json_max_distance_km (Fixtures.origin Null) = Null /\
  between (-90) (json_latitude (Fixtures.origin Null)) 90 = true /\
  between (-180) (json_longitude (Fixtures.origin Null)) 180 = true /\
  post_soil_carbon (Fixtures.env_of Fixtures.sparse_table) (Fixtures.origin Null)
  = (HttpError 500
       (DetailText "Internal server error: Error processing soil carbon data: unsupported operand type(s) for /: 'NoneType' and 'float'"),
     [ {| call_lat := 0; call_lon := 0; call_max_distance_km := None |} ]) /\
  validate_max_distance_km (json_max_distance_km (Fixtures.origin Null))
  = ([], None).
Proof.
  split; [reflexivity|]. split; [reflexivity|]. split; [reflexivity|].
  split; [vm_compute; reflexivity|].
  exact (proj1 (null_max_distance_is_a_server_error
                  (Fixtures.env_of Fixtures.sparse_table)
                  (Fixtures.origin Null)
                  eq_refl eq_refl eq_refl)).
Defined.

(** ** The coordinate checks inside the handlers *)

Lemma in_range_handlers_skip_400 req :
  between (-90) (latitude req) 90 = true ->
  between (-180) (longitude req) 180 = true ->
  (forall E d, fst (Main.get_soil_carbon E req) <> HttpError 400 d) /\
  (forall d, MainSimple.get_soil_carbon req <> HttpError 400 d).
Proof.
  intros Hlat Hlon. split.
  - intros E d. rewrite (get_soil_carbon_in_range E req Hlat Hlon). simpl.
    destruct (find_soil_carbon_optimized _ _ _ _) as [[msg|res]|e];
      simpl; discriminate.
  - intros d. unfold MainSimple.get_soil_carbon. rewrite Hlat, Hlon. simpl.
    discriminate.
Qed.

(** C10: for every request that reaches a handler, validation has
    already established -90 <= latitude <= 90 and -180 <= longitude <=
    180, so neither handler ever takes one of its own 400 branches. *)
Theorem handler_coordinate_checks_never_fire b req :
  validate_request b = inr req ->
  between (-90) (latitude req) 90 = true /\
  between (-180) (longitude req) 180 = true /\
  (forall E d, fst (Main.get_soil_carbon E req) <> HttpError 400 d) /\
  (forall d, MainSimple.get_soil_carbon req <> HttpError 400 d).
Proof.
  intros Hv. destruct (validated_coordinates b req Hv) as [Hlat Hlon].
  split; [exact Hlat|]. split; [exact Hlon|].
  now apply in_range_handlers_skip_400.
Qed.

Lemma handler_coordinate_checks_never_fire_witness :
  validate_request Fixtures.san_francisco
  = inr {| latitude := 37.7749; longitude := -122.4194;
           max_distance_km := Some 5 |} /\
  between (-90) 37.7749 90 = true /\
  between (-180) (-122.4194) 180 = true /\
  (forall E d,
      fst (Main.get_soil_carbon
             E {| latitude := 37.7749; longitude := -122.4194;
                  max_distance_km := Some 5 |}) <> HttpError 400 d) /\
  (forall d,
      MainSimple.get_soil_carbon
        {| latitude := 37.7749; longitude := -122.4194;
           max_distance_km := Some 5 |} <> HttpError 400 d).
Proof.
  split; [reflexivity|].
  exact (handler_coordinate_checks_never_fire
           Fixtures.san_francisco
           {| latitude := 37.7749; longitude := -122.4194;
              max_distance_km := Some 5 |}
           eq_refl).
Defined.

(** Seen from outside: neither endpoint ever answers 400. *)
Lemma endpoints_never_answer_400 E b d :
  fst (Main.post_soil_carbon E b) <> HttpError 400 d /\
  MainSimple.post_soil_carbon b <> HttpError 400 d.
Proof.
  unfold Main.post_soil_carbon, MainSimple.post_soil_carbon.
  destruct (validate_request b) as [errs|req] eqn:Hv.
  - unfold request_validation_response.
    destruct (forallb is_finite (echoed_inputs b)); split; discriminate.
  - destruct (validated_coordinates b req Hv) as [Hlat Hlon].
    destruct (in_range_handlers_skip_400 req Hlat Hlon) as [Hmain Hmock].
    auto.
Qed.

(** ** The search radius *)

Lemma get_soil_carbon_calls_once E req :
  between (-90) (latitude req) 90 = true ->
  between (-180) (longitude req) 180 = true ->
  snd (get_soil_carbon E req)
  = [ {| call_lat := latitude req;
         call_lon := longitude req;
         call_max_distance_km := max_distance_km req |} ].
Proof.
  intros Hlat Hlon. rewrite (get_soil_carbon_in_range E req Hlat Hlon). simpl.
  destruct (find_soil_carbon_optimized _ _ _ _) as [[msg|res]|e]; reflexivity.
Qed.

(** C6 as stated fails: a body whose [max_distance_km] is null is
    accepted, and the accepted request carries no radius within
    [0.1, 1000]. *)
Lemma null_max_distance_is_accepted :
  exists req,
    validate_request (Fixtures.origin Null) = inr req /\
    ~ (exists v, max_distance_km req = Some v /\ between 0.1 v 1000 = true).
Proof.
  eexists. split; [reflexivity|]. simpl. intros (v & Hv & _). discriminate.
Qed.

(** C6, amended: a number given for [max_distance_km] is accepted only
    within [0.1, 1000]; an explicit null is accepted as it is; and when
    the field is omitted the lookup is called with the default 10.0. *)
Theorem max_distance_km_contract b :
  (forall v, json_max_distance_km b = Given v ->
             between 0.1 v 1000 = false ->
             exists errs, validate_request b = inl errs /\
                          exists c, In {| loc := "max_distance_km";
                                          violated := c |} errs) /\
  (forall req, validate_request b = inr req ->
     match json_max_distance_km b with
     | Given v => between 0.1 v 1000 = true /\ max_distance_km req = Some v
     | Null => max_distance_km req = None
     | Omitted =>
         max_distance_km req = Some 10.0 /\
         forall E, snd (post_soil_carbon E b)
                   = [ {| call_lat := json_latitude b;
                          call_lon := json_longitude b;
                          call_max_distance_km := Some 10.0 |} ]
     end).
Proof.
  split.
  - intros v Hg Hout. unfold validate_request. rewrite Hg. simpl.
    destruct (check_bounds_out "max_distance_km" _ _ _ Hout) as [c ->].
    destruct (_ ++ _ ++ _)%list as [|e l] eqn:Hall.
    + apply app_eq_nil in Hall as [_ Hall].
      apply app_eq_nil in Hall as [_ Hall]. discriminate.
    + eexists. split; [reflexivity|]. exists c. rewrite <- Hall.
      apply in_or_app. right. apply in_or_app. right. now left.
  - intros req Hv. pose proof Hv as Hacc.
    apply validate_request_accepts in Hacc as (Hlat & Hlon & Herrs & Hreq).
    destruct (json_max_distance_km b) as [| |v] eqn:Hf; simpl in *.
    + split; [now rewrite Hreq|]. intros E.
      rewrite (post_soil_carbon_accepted E b req Hv).
      rewrite get_soil_carbon_calls_once; rewrite Hreq; auto.
    + now rewrite Hreq.
    + split; [now apply check_bounds_nil in Herrs|now rewrite Hreq].
Qed.

Lemma max_distance_km_contract_witness :
  validate_request (Fixtures.origin Omitted)
  = inr {| latitude := 0; longitude := 0; max_distance_km := Some 10.0 |} /\
  max_distance_km {| latitude := 0; longitude := 0;
                     max_distance_km := Some 10.0 |} = Some 10.0 /\
  forall E, snd (post_soil_carbon E (Fixtures.origin Omitted))
            = [ {| call_lat := 0; call_lon := 0;
                   call_max_distance_km := Some 10.0 |} ].
Proof.
  split; [reflexivity|].
  exact (proj2 (max_distance_km_contract (Fixtures.origin Omitted))
               {| latitude := 0; longitude := 0; max_distance_km := Some 10.0 |}
               eq_refl).
Defined.

(** Out-of-range radii are turned away, the bounds themselves are not. *)
Example max_distance_km_bounds :
  (exists errs, validate_request (Fixtures.origin (Given 0.05)) = inl errs) /\
  (exists errs, validate_request (Fixtures.origin (Given 1000.5)) = inl errs) /\
  (exists req, validate_request (Fixtures.origin (Given 0.1)) = inr req) /\
  (exists req, validate_request (Fixtures.origin (Given 1000)) = inr req).
Proof. repeat split; eexists; vm_compute; reflexivity. Qed.

(** ** Shape of the response body *)




(** ** The mock variant *)

(** C8: every accepted request gets [success = true] with the fixed mock
    sample, whose coordinates are the request's, each plus 0.01; and the
    mock variant has no answer with [success = false]. *)
Theorem mock_always_succeeds b req :
  validate_request b = inr req ->
  MainSimple.post_soil_carbon b
  = Http200
      {| success := true;
         message := "Mock soil carbon data returned successfully";
         data := Some
           [ ("carbon_pct", Float 2.5);
             ("sample_id", Str "mock_12345");
             ("distance_meters", Float 1500.0);
             ("latitude", Float (json_latitude b + 0.01));
             ("longitude", Float (json_longitude b + 0.01));
             ("note", Str "This is mock data. Real soil carbon functionality will be added after deployment.") ] |} /\
  forall b' body,
    MainSimple.post_soil_carbon b' = Http200 body -> success body = true.
Proof.
  intros Hv. split.
  - unfold MainSimple.post_soil_carbon. rewrite Hv.
    destruct (validated_coordinates b req Hv) as [Hlat Hlon].
    unfold MainSimple.get_soil_carbon. rewrite Hlat, Hlon. simpl.
    apply validate_request_accepts in Hv as (_ & _ & _ & ->). reflexivity.
  - intros b' body. unfold MainSimple.post_soil_carbon.
    destruct (validate_request b') as [errs|req'];
      [destruct (request_validation_response_cases b' errs) as [-> | ->];
       discriminate|].
    unfold MainSimple.get_soil_carbon.
    destruct (negb (between (-90) (latitude req') 90)); [discriminate|].
    destruct (negb (between (-180) (longitude req') 180)); [discriminate|].
    intros [= <-]. reflexivity.
Qed.

(** The Boston scenario of [test_api.py] against the mock. *)
Lemma mock_always_succeeds_witness :
  validate_request Fixtures.boston
  = inr {| latitude := 42.3601; longitude := -71.0589;
           max_distance_km := Some 10 |} /\
  MainSimple.post_soil_carbon Fixtures.boston
  = Http200
      {| success := true;
         message := "Mock soil carbon data returned successfully";
         data := Some
           [ ("carbon_pct", Float 2.5);
             ("sample_id", Str "mock_12345");
             ("distance_meters", Float 1500.0);
             ("latitude", Float (42.3601 + 0.01));
             ("longitude", Float (-71.0589 + 0.01));
             ("note", Str "This is mock data. Real soil carbon functionality will be added after deployment.") ] |}.
Proof.
  split; [reflexivity|].
  exact (proj1 (mock_always_succeeds
                  Fixtures.boston
                  {| latitude := 42.3601; longitude := -71.0589;
                     max_distance_km := Some 10 |}
                  eq_refl)).
Defined.

(** ** Planar distance after reprojection against great-circle distance *)

Section MercatorDistortion.
Import Epsg3857.
Local Open Scope R_scope.

(** Between two points of one parallel the projected distance is the
    difference of longitudes scaled by the equatorial radius, whatever
    the latitude. *)
Lemma distance_m_along_parallel lat lon slon :
  lon <= slon ->
  distance_m lat lon lat slon = semi_major_axis * radians (slon - lon).
Proof.
  intros H. unfold distance_m, planar_distance, forward; simpl.
  set (y := semi_major_axis * ln _).
  replace (y - y) with 0 by ring. rewrite Rsqr_0, Rplus_0_r.
  rewrite sqrt_Rsqr.
  - unfold radians. field.
  - unfold radians, semi_major_axis. pose proof PI_RGT_0. nra.
Qed.

(** X18: on the equator the two notions agree.  For a query and a
    sample both at latitude 0 and no more than 180 degrees of longitude
    apart, in either direction, [distance_m] is the great-circle distance
    on the EPSG:3857 sphere. *)
Theorem distance_m_on_equator lon slon :
  Rabs (slon - lon) <= 180 ->
  distance_m 0 lon 0 slon = great_circle semi_major_axis 0 lon 0 slon.
Proof.
  intros H. pose proof PI_RGT_0 as Hpi.
  unfold distance_m, planar_distance, forward, great_circle; simpl.
  set (y := semi_major_axis * ln _).
  replace (y - y) with 0 by ring. rewrite Rsqr_0, Rplus_0_r.
  replace (radians 0) with 0 by (unfold radians; field).
  rewrite sin_0, cos_0.
  replace (0 * 0 + 1 * 1 * cos (radians slon - radians lon))
    with (cos (radians slon - radians lon)) by ring.
  replace (semi_major_axis * radians slon - semi_major_axis * radians lon)
    with (semi_major_axis * (radians slon - radians lon)) by ring.
  rewrite sqrt_Rsqr_abs, Rabs_mult.
  rewrite (Rabs_right semi_major_axis) by (unfold semi_major_axis; lra).
  f_equal.
  assert (Hd : radians slon - radians lon = (slon - lon) * PI / 180)
    by (unfold radians; field).
  rewrite Hd. clear y. set (t := slon - lon) in *.
  unfold Rabs in *.
  destruct (Rcase_abs t) as [Ht|Ht];
    destruct (Rcase_abs (t * PI / 180)) as [Hr|Hr]; try nra.
  - rewrite <- (cos_neg (t * PI / 180)). rewrite acos_cos; [reflexivity|].
    split; nra.
  - rewrite acos_cos; [reflexivity|]. split; nra.
Qed.

(** A query at 170 E and a sample at 20 E, 150 degrees to its west. *)
Lemma distance_m_on_equator_witness :
  Rabs (20 - 170) <= 180 /\
  distance_m 0 170 0 20 = great_circle semi_major_axis 0 170 0 20.
Proof.
  assert (H : Rabs (20 - 170) <= 180).
  { unfold Rabs. destruct (Rcase_abs (20 - 170)); lra. }
  split; [exact H|]. exact (distance_m_on_equator 170 20 H).
Defined.

Lemma radians_60 : radians 60 = PI / 3.
Proof. unfold radians. field. Qed.

(** At 60 degrees of latitude two points [d] radians of longitude apart
    subtend less than [d / 2] at the centre of the sphere. *)
Lemma central_angle_at_60 d :
  0 < d <= PI ->
  acos (sin (PI / 3) * sin (PI / 3) + cos (PI / 3) * cos (PI / 3) * cos d)
  < d / 2.
Proof.
  intros [Hd0 Hd1]. pose proof PI_RGT_0 as Hpi.
  set (t := cos (d / 2)).
  assert (Ht : t < 1).
  { unfold t. rewrite <- cos_0. apply cos_decreasing_1; lra. }
  assert (Ht' : -1 <= t) by apply COS_bound.
  assert (Hcos : cos d = 2 * t * t - 1).
  { unfold t. rewrite <- cos_2a_cos. f_equal. field. }
  rewrite sin_PI3, cos_PI3, Hcos.
  replace (sqrt 3 / 2 * (sqrt 3 / 2)) with (3 / 4).
  2:{ replace (sqrt 3 / 2 * (sqrt 3 / 2)) with ((sqrt 3 * sqrt 3) / 4)
        by field.
      rewrite sqrt_sqrt; lra. }
  set (u := 3 / 4 + 1 / 2 * (1 / 2) * (2 * t * t - 1)).
  assert (Hu : -1 <= u <= 1) by (unfold u; split; nra).
  pose proof (acos_bound u) as [Hlo Hhi].
  apply cos_decreasing_0; try lra.
  rewrite cos_acos by exact Hu. fold t. unfold u. nra.
Qed.

(** C7 (as the code behaves): [distance_m] is a Mercator distance, not
    a great-circle distance.  For a query at 60 N, 0 E and a sample at
    60 N, 0.01 E it is more than twice the great-circle distance, on
    every sphere no larger than the one EPSG:3857 projects from. *)
Theorem distance_m_is_not_great_circle rho :
  0 < rho <= semi_major_axis ->
  2 * great_circle rho 60 0 60 (1 / 100) < distance_m 60 0 60 (1 / 100).
Proof.
  intros [Hr0 Hr1].
  rewrite distance_m_along_parallel by lra.
  unfold great_circle. rewrite radians_60.
  set (d := radians (1 / 100) - radians 0).
  assert (Hd : 0 < d <= PI).
  { unfold d, radians. pose proof PI_RGT_0. split; lra. }
  pose proof (central_angle_at_60 d Hd) as Hlt.
  pose proof (acos_bound (sin (PI / 3) * sin (PI / 3)
                          + cos (PI / 3) * cos (PI / 3) * cos d))
    as [Hb _].
  replace (radians (1 / 100 - 0)) with d by (unfold d, radians; field).
  unfold semi_major_axis in *. nra.
Qed.

(** The same on a sphere with the mean radius of the Earth. *)
Lemma distance_m_is_not_great_circle_witness :
  0 < 6371008.8 <= semi_major_axis /\
  2 * great_circle 6371008.8 60 0 60 (1 / 100)
  < distance_m 60 0 60 (1 / 100).
Proof.
  assert (H : 0 < 6371008.8 <= semi_major_axis)
    by (unfold semi_major_axis; split; lra).
  split; [exact H|].
  exact (distance_m_is_not_great_circle 6371008.8 H).
Defined.

(** What it costs the caller: at 60 N a sample 0.12 degrees east of the
    query is less than 10 km away on the sphere, yet its [distance_m]
    exceeds [10 * 1000] and the radius filter of a 10 km search drops
    it. *)
Lemma sample_within_radius_is_filtered_out rho :
  0 < rho <= semi_major_axis ->
  great_circle rho 60 0 60 (12 / 100) < 10 * 1000 /\
  10 * 1000 < distance_m 60 0 60 (12 / 100).
Proof.
  intros [Hr0 Hr1].
  rewrite distance_m_along_parallel by lra.
  unfold great_circle. rewrite radians_60.
  set (d := radians (12 / 100) - radians 0).
  pose proof PI_RGT_0 as Hpi. pose proof PI_4 as Hpi4.
  pose proof PI2_3_2 as Hpi3.
  assert (Hd : 0 < d <= PI) by (unfold d, radians; split; lra).
  pose proof (central_angle_at_60 d Hd) as Hlt.
  pose proof (acos_bound (sin (PI / 3) * sin (PI / 3)
                          + cos (PI / 3) * cos (PI / 3) * cos d))
    as [Hb _].
  replace (radians (12 / 100 - 0)) with d by (unfold d, radians; field).
  assert (Hdv : d = 12 / 100 * PI / 180) by (unfold d, radians; field).
  unfold semi_major_axis in *. split; nra.
Qed.

End MercatorDistortion.

(** * Further properties of the code *)

(** ** Validation, in full *)

(** X1: a body is accepted exactly when its latitude is in [-90, 90],
    its longitude in [-180, 180] and its radius, when a number is given,
    in [0.1, 1000]; the accepted request carries the coordinates of the
    body unchanged. *)
Theorem validate_request_accepts_exactly b :
  ((exists req, validate_request b = inr req) <->
   between (-90) (json_latitude b) 90 = true /\
   between (-180) (json_longitude b) 180 = true /\
   match json_max_distance_km b with
   | Given v => between 0.1 v 1000 = true
   | Omitted | Null => True
   end) /\
  (forall req, validate_request b = inr req ->
               latitude req = json_latitude b /\
               longitude req = json_longitude b).
Proof.
  split.
  - split.
    + intros [req Hv].
      apply validate_request_accepts in Hv as (Hlat & Hlon & Herrs & _).
      repeat split; try assumption.
      destruct (json_max_distance_km b); simpl in *; auto.
      now apply check_bounds_nil in Herrs.
    + intros (Hlat & Hlon & Hdist). eexists.
      apply validate_request_accepts. repeat split; try assumption.
      destruct (json_max_distance_km b); simpl in *; auto.
      now apply check_bounds_nil.
  - intros req Hv.
    apply validate_request_accepts in Hv as (_ & _ & _ & ->). auto.
Qed.

(** X2: a rejected body is reported field by field: the report names
    each failing field exactly once, in the order latitude, longitude,
    max_distance_km, and names no other field. *)
Theorem validation_reports_each_failing_field b errs :
  validate_request b = inl errs ->
  map loc errs
  = ((if between (-90) (json_latitude b) 90 then [] else ["latitude"])
     ++ (if between (-180) (json_longitude b) 180 then [] else ["longitude"])
     ++ match json_max_distance_km b with
        | Given v => if between 0.1 v 1000 then [] else ["max_distance_km"]
        | Omitted | Null => []
        end)%list /\
  errs <> [].
Proof.
  assert (Hloc : forall name lo hi v,
             map loc (check_bounds name lo hi v)
             = if between lo v hi then [] else [name]).
  { intros name lo hi v. unfold check_bounds, between.
    destruct (lo <=? v), (v <=? hi); reflexivity. }
  unfold validate_request.
  destruct (validate_max_distance_km (json_max_distance_km b))
    as [errs_dist dist] eqn:Hd.
  destruct (_ ++ _ ++ _)%list as [|e l] eqn:Hall; [discriminate|].
  intros [= <-]. split; [|discriminate].
  rewrite <- Hall, !map_app, !Hloc. do 2 f_equal.
  destruct (json_max_distance_km b); simpl in Hd;
    injection Hd as <- _; try reflexivity.
  apply Hloc.
Qed.

Lemma validation_reports_each_failing_field_witness :
  validate_request {| json_latitude := 200; json_longitude := -500;
                      json_max_distance_km := Given 0 |}
  = inl [ {| loc := "latitude"; violated := LessThanEqual 90 |};
          {| loc := "longitude"; violated := GreaterThanEqual (-180) |};
          {| loc := "max_distance_km"; violated := GreaterThanEqual 0.1 |} ] /\
  map loc [ {| loc := "latitude"; violated := LessThanEqual 90 |};
            {| loc := "longitude"; violated := GreaterThanEqual (-180) |};
            {| loc := "max_distance_km"; violated := GreaterThanEqual 0.1 |} ]
  = ["latitude"; "longitude"; "max_distance_km"].
Proof.
  split; [reflexivity|].
  exact (proj1 (validation_reports_each_failing_field
                  {| json_latitude := 200; json_longitude := -500;
                     json_max_distance_km := Given 0 |}
                  _ eq_refl)).
Defined.

(** X3: an infinity or a NaN given as latitude, longitude or radius
    never gets past validation, and the report that would echo it cannot
    be rendered: both variants answer a plain-text 500 "Internal Server
    Error", and no lookup is made. *)
Theorem non_finite_number_is_a_server_error E b :
  is_finite (json_latitude b) = false \/
  is_finite (json_longitude b) = false \/
  (exists v, json_max_distance_km b = Given v /\ is_finite v = false) ->
  (exists errs, validate_request b = inl errs) /\
  Main.post_soil_carbon E b = (PlainText 500 "Internal Server Error", []) /\
  MainSimple.post_soil_carbon b = PlainText 500 "Internal Server Error".
Proof.
  intros Hnf.
  assert (Hall : Ieee.all_finite b = false).
  { unfold Ieee.all_finite, Ieee.numbers. simpl.
    destruct Hnf as [H|[H|(v & Hg & H)]].
    - now rewrite H.
    - rewrite H. apply andb_false_r.
    - rewrite Hg. simpl. rewrite H. now rewrite !andb_false_r. }
  destruct (non_finite_is_rejected b Hall) as [errs Hv].
  split; [now exists errs|].
  unfold Main.post_soil_carbon, MainSimple.post_soil_carbon. rewrite Hv.
  rewrite (request_validation_response_non_finite b errs Hall).
  split; reflexivity.
Qed.

(** A radius given as [NaN]. *)
Lemma non_finite_number_is_a_server_error_witness :
  (exists v, json_max_distance_km Fixtures.nan_radius = Given v /\
             is_finite v = false) /\
  (exists errs, validate_request Fixtures.nan_radius = inl errs) /\
  Main.post_soil_carbon Fixtures.env_offline Fixtures.nan_radius
  = (PlainText 500 "Internal Server Error", []) /\
  MainSimple.post_soil_carbon Fixtures.nan_radius
  = PlainText 500 "Internal Server Error".
Proof.
  assert (H : exists v, json_max_distance_km Fixtures.nan_radius = Given v /\
                        is_finite v = false)
    by (exists nan; split; reflexivity).
  split; [exact H|].
  exact (non_finite_number_is_a_server_error
           Fixtures.env_offline Fixtures.nan_radius
           (or_intror (or_intror H))).
Defined.

(** The bound a NaN is reported to break is the upper one. *)
Example nan_breaks_the_upper_bound :
  validate_request Fixtures.nan_radius
  = inl [ {| loc := "max_distance_km"; violated := LessThanEqual 1000 |} ].
Proof. reflexivity. Qed.

(** ** When the service answers 500 *)

(** With a loaded table and a buffer that could be built the lookup is
    decided by the sorted [nearby] frame alone, and it returns. *)
Lemma lookup_body_by_nearby_in_bounds E lat lon r props bbox :
  get_properties E = Returned props ->
  buffer_bounds E lon lat (r / 111) = Returned bbox ->
  lookup_body E lat lon (Some r)
  = match sort_values E (nearby E lat lon r props) with
    | [] => Returned (Message (no_data_message E r))
    | nearest :: _ =>
        match first_carbon (fst nearest) with
        | None => Returned (Message (no_carbon_message E r))
        | Some carbon_val => Returned (Data (sample_dict nearest carbon_val))
        end
    end.
Proof.
  intros Hp Hb.
  destruct (sort_values E (nearby E lat lon r props))
    as [|nearest rest] eqn:Hs.
  - apply (lookup_body_no_data_in_bounds E lat lon r props bbox Hp Hb).
    destruct (nearby E lat lon r props) as [|x l]; [reflexivity|].
    now apply sort_values_nonempty in Hs.
  - exact (lookup_body_nearest E lat lon r props nearest rest Hp Hs).
Qed.

Lemma lookup_body_by_nearby E lat lon r props :
  get_properties E = Returned props ->
  is_finite r = true ->
  lookup_body E lat lon (Some r)
  = match sort_values E (nearby E lat lon r props) with
    | [] => Returned (Message (no_data_message E r))
    | nearest :: _ =>
        match first_carbon (fst nearest) with
        | None => Returned (Message (no_carbon_message E r))
        | Some carbon_val => Returned (Data (sample_dict nearest carbon_val))
        end
    end.
Proof.
  intros Hp Hr.
  destruct (sort_values E (nearby E lat lon r props))
    as [|nearest rest] eqn:Hs.
  - apply (lookup_body_no_data E lat lon r props Hp Hr).
    destruct (nearby E lat lon r props) as [|x l]; [reflexivity|].
    now apply sort_values_nonempty in Hs.
  - exact (lookup_body_nearest E lat lon r props nearest rest Hp Hs).
Qed.

Lemma find_returns_with_table E lat lon r props :
  get_properties E = Returned props ->
  is_finite r = true ->
  exists res, find_soil_carbon_optimized E lat lon (Some r) = Returned res.
Proof.
  intros Hp Hr. unfold find_soil_carbon_optimized.
  rewrite (lookup_body_by_nearby E lat lon r props Hp Hr).
  destruct (sort_values _ _) as [|nearest rest]; [eexists; reflexivity|].
  destruct (first_carbon _); eexists; reflexivity.
Qed.

Lemma find_raises_when_loading_fails E lat lon m e :
  get_properties E = Raised e ->
  find_soil_carbon_optimized E lat lon m
  = Raised ("Error processing soil carbon data: " ++ e).
Proof.
  intros He. unfold find_soil_carbon_optimized, lookup_body. rewrite He.
  reflexivity.
Qed.

(** X4: the real service answers with status 500 in exactly three cases:
    an accepted request whose radius is null, an accepted request while
    the dataset fails to load, and a body that carries an infinity or a
    NaN.  In particular the buffer of an accepted radius can always be
    built and the sort never leaves the lookup without a first row. *)
Theorem server_error_exactly_when E b :
  TestApi.status_code (fst (Main.post_soil_carbon E b)) = 500%Z <->
  (exists req, validate_request b = inr req /\
               (max_distance_km req = None \/
                exists e, get_properties E = Raised e)) \/
  Ieee.all_finite b = false.
Proof.
  unfold Main.post_soil_carbon.
  destruct (validate_request b) as [errs|req] eqn:Hv.
  - destruct (Ieee.all_finite b) eqn:Hfin.
    + rewrite (request_validation_response_finite b errs Hfin). simpl.
      split; [discriminate|].
      intros [(req & Hreq & _)|Hnf]; discriminate.
    + rewrite (request_validation_response_non_finite b errs Hfin). simpl.
      split; auto.
  - assert (Hfin : Ieee.all_finite b = true).
    { destruct (Ieee.all_finite b) eqn:Hfin; [reflexivity|].
      destruct (non_finite_is_rejected b Hfin) as [errs Herrs].
      rewrite Herrs in Hv. discriminate. }
    destruct (validated_coordinates b req Hv) as [Hlat Hlon].
    rewrite (get_soil_carbon_in_range E req Hlat Hlon). simpl. split.
    + intros Hd. left. exists req. split; [reflexivity|].
      destruct (max_distance_km req) as [r|] eqn:Hr; [|now left].
      right. destruct (get_properties E) as [props|e] eqn:Hp;
        [|now exists e].
      destruct (find_returns_with_table
                  E (latitude req) (longitude req) r props Hp
                  (validated_radius_finite b req r Hv Hr)) as [res Hres].
      rewrite Hres in Hd. destruct res; discriminate.
    + intros [(req' & [= <-] & [Hnone|[e He]])|Hnf]; [| |congruence].
      * rewrite Hnone.
        destruct (find_without_radius_raises E (latitude req) (longitude req))
          as [e ->].
        reflexivity.
      * rewrite (find_raises_when_loading_fails _ _ _ _ e He).
        reflexivity.
Qed.

(** X5: when the dataset cannot be loaded, every accepted request,
    whatever its radius, is answered 500 with the loader's message
    wrapped twice, after a single lookup call. *)
Theorem dataset_failure_is_reported E b req e :
  get_properties E = Raised e ->
  validate_request b = inr req ->
  Main.post_soil_carbon E b
  = (HttpError 500
       (DetailText ("Internal server error: Error processing soil carbon data: "
                    ++ e)),
     [ {| call_lat := json_latitude b;
          call_lon := json_longitude b;
          call_max_distance_km := max_distance_km req |} ]).
Proof.
  intros He Hv. rewrite (post_soil_carbon_accepted E b req Hv).
  destruct (validated_coordinates b req Hv) as [Hlat Hlon].
  rewrite (get_soil_carbon_in_range E req Hlat Hlon). simpl.
  rewrite (find_raises_when_loading_fails _ _ _ _ e He).
  apply validate_request_accepts in Hv as (_ & _ & _ & ->). reflexivity.
Qed.

Lemma dataset_failure_is_reported_witness :
  get_properties Fixtures.env_offline = Raised "dataset unavailable" /\
  Main.post_soil_carbon Fixtures.env_offline Fixtures.san_francisco
  = (HttpError 500
       (DetailText "Internal server error: Error processing soil carbon data: dataset unavailable"),
     [ {| call_lat := 37.7749; call_lon := -122.4194;
          call_max_distance_km := Some 5 |} ]).
Proof.
  split; [reflexivity|].
  exact (dataset_failure_is_reported
           Fixtures.env_offline Fixtures.san_francisco
           {| latitude := 37.7749; longitude := -122.4194;
              max_distance_km := Some 5 |}
           "dataset unavailable" eq_refl eq_refl).
Defined.

(** X6: the lookup is called once for every accepted body, with the
    validated coordinates and radius, and not at all for a rejected
    one. *)
Theorem lookup_is_called_once_per_accepted_request E b :
  snd (Main.post_soil_carbon E b)
  = match validate_request b with
    | inl _ => []
    | inr req => [ {| call_lat := json_latitude b;
                      call_lon := json_longitude b;
                      call_max_distance_km := max_distance_km req |} ]
    end.
Proof.
  unfold Main.post_soil_carbon.
  destruct (validate_request b) as [errs|req] eqn:Hv; [reflexivity|].
  destruct (validated_coordinates b req Hv) as [Hlat Hlon].
  rewrite (get_soil_carbon_calls_once E req Hlat Hlon).
  apply validate_request_accepts in Hv as (_ & _ & _ & ->). reflexivity.
Qed.

(** ** What a returned sample is *)

(** X7: the sample of a successful lookup is a row of the loaded table
    with both coordinates present, lying in the query's bounding box of
    [max_distance_km / 111] degrees; the reported identifier and
    coordinates are that row's, and the reported distance is the distance
    computed for that row, which is a number. *)
Theorem returned_sample_is_a_table_row E lat lon m d :
  find_soil_carbon_optimized E lat lon m = Returned (Data d) ->
  exists r props row c,
    m = Some r /\
    get_properties E = Returned props /\
    In row props /\
    notnull (latitude_point_wgs84_dd row) = true /\
    notnull (longitude_point_wgs84_dd row) = true /\
    between (lon - r / 111) (longitude_point_wgs84_dd row) (lon + r / 111)
    = true /\
    between (lat - r / 111) (latitude_point_wgs84_dd row) (lat + r / 111)
    = true /\
    d = [ ("carbon_pct", Float c);
          ("sample_id", Str (name row));
          ("distance_meters",
           Float (distance E
                    (to_crs_3857 E (longitude_point_wgs84_dd row,
                                    latitude_point_wgs84_dd row))
                    (to_crs_3857 E (lon, lat))));
          ("latitude", Float (latitude_point_wgs84_dd row));
          ("longitude", Float (longitude_point_wgs84_dd row)) ] /\
    is_nan (distance E
              (to_crs_3857 E (longitude_point_wgs84_dd row,
                              latitude_point_wgs84_dd row))
              (to_crs_3857 E (lon, lat))) = false.
Proof.
  intros H.
  apply find_returns_data in H as (r & props & [row dist] & rest & c & H).
  destruct H as (-> & Hp & Hs & Hc & ->).
  apply sort_values_head_least in Hs as [Hin _].
  apply nearby_In in Hin as (Hle & Hpm & Hdist). simpl in *.
  apply possible_matches_In in Hpm
    as (Hrow & Hnlat & Hnlon & _ & _ & Hlon & Hlat).
  exists r, props, row, c. subst dist.
  repeat split; try assumption.
  now apply float_leb_defined in Hle.
Qed.

Lemma returned_sample_is_a_table_row_witness :
  find_soil_carbon_optimized (Fixtures.env_of Fixtures.sparse_table)
                             0 0 (Some 10)
  = Returned (Data (sample_dict
                      (Fixtures.rich_sample,
                       Fixtures.from_origin Fixtures.rich_sample) 1.5)) /\
  exists r props row c,
    Some 10 = Some r /\
    get_properties (Fixtures.env_of Fixtures.sparse_table) = Returned props /\
    In row props /\
    notnull (latitude_point_wgs84_dd row) = true /\
    notnull (longitude_point_wgs84_dd row) = true /\
    between (0 - r / 111) (longitude_point_wgs84_dd row) (0 + r / 111)
    = true /\
    between (0 - r / 111) (latitude_point_wgs84_dd row) (0 + r / 111)
    = true /\
    sample_dict (Fixtures.rich_sample,
                 Fixtures.from_origin Fixtures.rich_sample) 1.5
    = [ ("carbon_pct", Float c);
        ("sample_id", Str (name row));
        ("distance_meters",
         Float (Fixtures.euclidean
                  (Fixtures.equatorial_crs (longitude_point_wgs84_dd row,
                                            latitude_point_wgs84_dd row))
                  (Fixtures.equatorial_crs (0, 0))));
        ("latitude", Float (latitude_point_wgs84_dd row));
        ("longitude", Float (longitude_point_wgs84_dd row)) ] /\
    is_nan (Fixtures.euclidean
              (Fixtures.equatorial_crs (longitude_point_wgs84_dd row,
                                        latitude_point_wgs84_dd row))
              (Fixtures.equatorial_crs (0, 0))) = false.
Proof.
  assert (H : find_soil_carbon_optimized (Fixtures.env_of Fixtures.sparse_table)
                                         0 0 (Some 10)
              = Returned (Data (sample_dict
                                  (Fixtures.rich_sample,
                                   Fixtures.from_origin Fixtures.rich_sample)
                                  1.5)))
    by (vm_compute; reflexivity).
  split; [exact H|].
  exact (returned_sample_is_a_table_row
           (Fixtures.env_of Fixtures.sparse_table) 0 0 (Some 10) _ H).
Defined.

(** X8: the reported carbon value follows the priority of the three
    fields: the ISO reading when it is present, else the USDA c1059
    reading when present, else the USDA c729 reading; it is never null. *)
Theorem carbon_fields_priority E lat lon m d :
  find_soil_carbon_optimized E lat lon m = Returned (Data d) ->
  exists row c,
    get d "sample_id" = Some (Str (name row)) /\
    get d "carbon_pct" = Some (Float c) /\
    notnull c = true /\
    c = (if notnull (oc_iso_10694_w_pct row) then oc_iso_10694_w_pct row
         else if notnull (oc_usda_c1059_w_pct row) then oc_usda_c1059_w_pct row
         else oc_usda_c729_w_pct row) /\
    exists r props dist,
      m = Some r /\ get_properties E = Returned props /\
      In (row, dist) (nearby E lat lon r props).
Proof.
  intros H.
  apply find_returns_data in H as (r & props & [row dist] & rest & c & H).
  destruct H as (-> & Hp & Hs & Hc & ->).
  apply sort_values_head_least in Hs as [Hin _]. simpl in Hc.
  exists row, c. split; [reflexivity|]. split; [reflexivity|].
  split; [now apply first_carbon_some in Hc|].
  split; [|now exists r, props, dist].
  revert Hc. unfold first_carbon.
  destruct (notnull (oc_iso_10694_w_pct row)); [now intros [= <-]|].
  destruct (notnull (oc_usda_c1059_w_pct row)); [now intros [= <-]|].
  destruct (notnull (oc_usda_c729_w_pct row)); [now intros [= <-]|discriminate].
Qed.

Lemma carbon_fields_priority_witness :
  find_soil_carbon_optimized (Fixtures.env_of Fixtures.sparse_table)
                             0 0 (Some 10)
  = Returned (Data (sample_dict
                      (Fixtures.rich_sample,
                       Fixtures.from_origin Fixtures.rich_sample) 1.5)) /\
  notnull (oc_iso_10694_w_pct Fixtures.rich_sample) = false /\
  oc_usda_c1059_w_pct Fixtures.rich_sample = 1.5 /\
  oc_usda_c729_w_pct Fixtures.rich_sample = 3 /\
  exists row c,
    get (sample_dict (Fixtures.rich_sample,
                      Fixtures.from_origin Fixtures.rich_sample) 1.5)
        "sample_id" = Some (Str (name row)) /\
    get (sample_dict (Fixtures.rich_sample,
                      Fixtures.from_origin Fixtures.rich_sample) 1.5)
        "carbon_pct" = Some (Float c) /\
    notnull c = true /\
    c = (if notnull (oc_iso_10694_w_pct row) then oc_iso_10694_w_pct row
         else if notnull (oc_usda_c1059_w_pct row) then oc_usda_c1059_w_pct row
         else oc_usda_c729_w_pct row) /\
    exists r props dist,
      Some 10 = Some r /\
      get_properties (Fixtures.env_of Fixtures.sparse_table) = Returned props /\
      In (row, dist) (nearby (Fixtures.env_of Fixtures.sparse_table)
                             0 0 r props).
Proof.
  assert (H : find_soil_carbon_optimized (Fixtures.env_of Fixtures.sparse_table)
                                         0 0 (Some 10)
              = Returned (Data (sample_dict
                                  (Fixtures.rich_sample,
                                   Fixtures.from_origin Fixtures.rich_sample)
                                  1.5)))
    by (vm_compute; reflexivity).
  split; [exact H|]. split; [reflexivity|]. split; [reflexivity|].
  split; [reflexivity|].
  exact (carbon_fields_priority
           (Fixtures.env_of Fixtures.sparse_table) 0 0 (Some 10) _ H).
Defined.

(** ** Rows that do not count *)

Lemma nearby_app_In E lat lon r props1 props2 p :
  In p (nearby E lat lon r (props1 ++ props2)) <->
  In p (nearby E lat lon r props1) \/ In p (nearby E lat lon r props2).
Proof.
  rewrite !nearby_In_iff, !possible_matches_In, in_app_iff. tauto.
Qed.

(** Two frames with the same rows, none of them tied with another, have
    the same first row once sorted, whatever the order they came in. *)
Lemma sort_values_head_unique E E' l l' :
  (forall p, In p l <-> In p l') ->
  (forall p q, In p l -> In q l ->
               key_le (snd p) (snd q) = true ->
               key_le (snd q) (snd p) = true -> p = q) ->
  hd_error (sort_values E l) = hd_error (sort_values E' l').
Proof.
  intros Hsame Hties.
  destruct (sort_values E l) as [|h rest] eqn:Hs;
    destruct (sort_values E' l') as [|h' rest'] eqn:Hs'; simpl.
  - reflexivity.
  - exfalso. apply sort_values_head_least in Hs' as [Hin _].
    apply Hsame in Hin. destruct l as [|x l]; [exact Hin|].
    now apply sort_values_nonempty in Hs.
  - exfalso. apply sort_values_head_least in Hs as [Hin _].
    apply Hsame in Hin. destruct l' as [|x l']; [exact Hin|].
    now apply sort_values_nonempty in Hs'.
  - apply sort_values_head_least in Hs as [Hin Hleast].
    apply sort_values_head_least in Hs' as [Hin' Hleast'].
    f_equal. apply Hties.
    + exact Hin.
    + now apply Hsame.
    + apply Hleast. now apply Hsame.
    + apply Hleast'. now apply Hsame.
Qed.

(** X9: when no two different rows within the radius are at the same
    distance from the query, rows that the filters drop (no coordinates,
    outside the bounding box, or farther than the radius) have no
    influence on the answer: removing them from anywhere in the table
    leaves the result of the lookup unchanged, whatever the order in which
    the spatial index hands the candidates over. *)
Theorem dropped_rows_do_not_matter E lat lon m before dropped after :
  (forall r, m = Some r -> nearby E lat lon r dropped = []) ->
  (forall r p q,
      m = Some r ->
      In p (nearby E lat lon r (before ++ after)) ->
      In q (nearby E lat lon r (before ++ after)) ->
      (snd p <=? snd q) = true -> (snd q <=? snd p) = true -> p = q) ->
  find_soil_carbon_optimized
    (Tables.with_table E (before ++ dropped ++ after)) lat lon m
  = find_soil_carbon_optimized
      (Tables.with_table E (before ++ after)) lat lon m.
Proof.
  intros Hdropped Hties. destruct m as [r|]; [|reflexivity].
  unfold find_soil_carbon_optimized.
  destruct (buffer_bounds E lon lat (r / 111)) as [bbox|e] eqn:Hb.
  - rewrite (lookup_body_by_nearby_in_bounds
               (Tables.with_table E (before ++ dropped ++ after))
               lat lon r _ bbox eq_refl Hb).
    rewrite (lookup_body_by_nearby_in_bounds
               (Tables.with_table E (before ++ after))
               lat lon r _ bbox eq_refl Hb).
    change (nearby (Tables.with_table E (before ++ dropped ++ after)))
      with (nearby E).
    change (nearby (Tables.with_table E (before ++ after))) with (nearby E).
    assert (Hhd : hd_error
                    (sort_values
                       (Tables.with_table E (before ++ after))
                       (nearby E lat lon r (before ++ after)))
                  = hd_error
                      (sort_values
                         (Tables.with_table E (before ++ dropped ++ after))
                         (nearby E lat lon r (before ++ dropped ++ after)))).
    { apply sort_values_head_unique.
      - intros p. rewrite !nearby_app_In, (Hdropped r eq_refl). simpl. tauto.
      - intros p q Hp Hq Hpq Hqp.
        pose proof (nearby_In _ _ _ _ _ _ Hp) as (Hnp & _).
        pose proof (nearby_In _ _ _ _ _ _ Hq) as (Hnq & _).
        apply float_leb_defined in Hnp as [Hnp _].
        apply float_leb_defined in Hnq as [Hnq _].
        rewrite key_le_number in Hpq by exact Hnq.
        rewrite key_le_number in Hqp by exact Hnp.
        exact (Hties r p q eq_refl Hp Hq Hpq Hqp). }
    destruct (sort_values (Tables.with_table E (before ++ after)) _)
      as [|h rest];
      destruct (sort_values (Tables.with_table E (before ++ dropped ++ after)) _)
      as [|h' rest']; simpl in Hhd; try discriminate; [reflexivity|].
    injection Hhd as <-. reflexivity.
  - rewrite (lookup_body_buffer_raises
               (Tables.with_table E (before ++ dropped ++ after))
               lat lon r _ e eq_refl Hb).
    rewrite (lookup_body_buffer_raises
               (Tables.with_table E (before ++ after))
               lat lon r _ e eq_refl Hb).
    reflexivity.
Qed.

(** Two rows within 10 km of the query, 1.1 km and 2.2 km away, in a
    table that also holds a row without coordinates and a row far away. *)
Lemma dropped_rows_do_not_matter_witness :
  nearby (Fixtures.env_of []) 0 0 10
         [Fixtures.unlocated_sample; Fixtures.remote_sample] = [] /\
  nearby (Fixtures.env_of []) 0 0 10
         ([Fixtures.bare_sample] ++ [Fixtures.rich_sample])
  = [(Fixtures.bare_sample, Fixtures.from_origin Fixtures.bare_sample);
     (Fixtures.rich_sample, Fixtures.from_origin Fixtures.rich_sample)] /\
  find_soil_carbon_optimized
    (Tables.with_table (Fixtures.env_of [])
       ([Fixtures.bare_sample]
        ++ [Fixtures.unlocated_sample; Fixtures.remote_sample]
        ++ [Fixtures.rich_sample])) 0 0 (Some 10)
  = find_soil_carbon_optimized
      (Tables.with_table (Fixtures.env_of [])
         ([Fixtures.bare_sample] ++ [Fixtures.rich_sample])) 0 0 (Some 10).
Proof.
  assert (H : nearby (Fixtures.env_of []) 0 0 10
                     [Fixtures.unlocated_sample; Fixtures.remote_sample] = [])
    by (vm_compute; reflexivity).
  assert (Hn : nearby (Fixtures.env_of []) 0 0 10
                      ([Fixtures.bare_sample] ++ [Fixtures.rich_sample])
               = [(Fixtures.bare_sample,
                   Fixtures.from_origin Fixtures.bare_sample);
                  (Fixtures.rich_sample,
                   Fixtures.from_origin Fixtures.rich_sample)])
    by (vm_compute; reflexivity).
  split; [exact H|]. split; [exact Hn|].
  apply (dropped_rows_do_not_matter (Fixtures.env_of []) 0 0 (Some 10)).
  - intros r [= <-]. exact H.
  - intros r p q [= <-]. rewrite Hn.
    intros [<-|[<-|[]]] [<-|[<-|[]]]; try reflexivity;
      vm_compute; discriminate.
Defined.

(** Between two rows at the same distance the order of the index
    decides, and a row that every filter drops can change that order:
    the answer to the same query goes from the western row to the eastern
    one when a row 5 degrees away is added to the table. *)
Example tied_rows_follow_the_index :
  Fixtures.from_origin Fixtures.west_sample
  = Fixtures.from_origin Fixtures.east_sample /\
  nearby (Fixtures.env_east_first []) 0 0 10 [Fixtures.remote_sample] = [] /\
  find_soil_carbon_optimized
    (Fixtures.env_east_first [Fixtures.west_sample; Fixtures.east_sample])
    0 0 (Some 10)
  = Returned (Data (sample_dict
                      (Fixtures.west_sample,
                       Fixtures.from_origin Fixtures.west_sample) 1)) /\
  find_soil_carbon_optimized
    (Fixtures.env_east_first
       [Fixtures.west_sample; Fixtures.remote_sample; Fixtures.east_sample])
    0 0 (Some 10)
  = Returned (Data (sample_dict
                      (Fixtures.east_sample,
                       Fixtures.from_origin Fixtures.east_sample) 2)).
Proof. repeat split; vm_compute; reflexivity. Qed.

(** ** Coherence of the 200 answers *)

Lemma find_returns_message E lat lon m s :
  find_soil_carbon_optimized E lat lon m = Returned (Message s) ->
  exists r, m = Some r /\
            (s = no_data_message E r \/ s = no_carbon_message E r).
Proof.
  unfold find_soil_carbon_optimized.
  destruct m as [r|].
  - destruct (get_properties E) as [props|e] eqn:Hp.
    + destruct (buffer_bounds E lon lat (r / 111)) as [bbox|e] eqn:Hb.
      * rewrite (lookup_body_by_nearby_in_bounds E lat lon r props bbox Hp Hb).
        destruct (sort_values _ _) as [|nearest rest];
          [intros [= <-]; exists r; auto|].
        destruct (first_carbon _); intros [= <-]. exists r. auto.
      * rewrite (lookup_body_buffer_raises E lat lon r props e Hp Hb).
        discriminate.
    + unfold lookup_body. rewrite Hp. discriminate.
  - unfold lookup_body. destruct (get_properties E); discriminate.
Qed.

(** X10: in every 200 answer of the real service, [success], [data] and
    [message] tell the same story: [success] is true exactly when [data]
    is present, exactly when the message is the success message; a
    failure carries one of the two "No ..." messages. *)
Theorem success_data_message_agree E b body :
  fst (Main.post_soil_carbon E b) = Http200 body ->
  (success body = true <-> exists d, data body = Some d) /\
  (success body = true <->
   message body = "Soil carbon data found successfully") /\
  (success body = false ->
   exists r, message body = no_data_message E r \/
             message body = no_carbon_message E r).
Proof.
  unfold Main.post_soil_carbon.
  destruct (validate_request b) as [errs|req] eqn:Hv;
    [destruct (request_validation_response_cases b errs) as [-> | ->];
     discriminate|].
  destruct (validated_coordinates b req Hv) as [Hlat Hlon].
  rewrite (get_soil_carbon_in_range E req Hlat Hlon). simpl.
  destruct (find_soil_carbon_optimized _ _ _ _) as [[msg|res]|e] eqn:Hf;
    simpl; try discriminate; intros [= <-]; simpl.
  - apply find_returns_message in Hf as (r & _ & Hmsg).
    repeat split; try discriminate.
    + intros [d Hd]. discriminate.
    + intros ->. destruct Hmsg as [Hmsg|Hmsg]; discriminate.
    + intros _. now exists r.
  - repeat split; try reflexivity; try discriminate.
    intros _. now eexists.
Qed.

Lemma success_data_message_agree_witness :
  fst (Main.post_soil_carbon (Fixtures.env_of Fixtures.masking_table)
                             (Fixtures.origin Omitted))
  = Http200 {| success := false;
               message := "No organic carbon data available within 10.0 km";
               data := None |} /\
  (false = true <-> exists d, @None dict = Some d) /\
  (false = true <->
   "No organic carbon data available within 10.0 km"
   = "Soil carbon data found successfully").
Proof.
  assert (H : fst (Main.post_soil_carbon
                     (Fixtures.env_of Fixtures.masking_table)
                     (Fixtures.origin Omitted))
              = Http200 {| success := false;
                           message := "No organic carbon data available within 10.0 km";
                           data := None |})
    by (vm_compute; reflexivity).
  split; [exact H|].
  destruct (success_data_message_agree
              (Fixtures.env_of Fixtures.masking_table)
              (Fixtures.origin Omitted) _ H) as (H1 & H2 & _).
  split; [exact H1|exact H2].
Defined.

(** ** The mock variant against the real one *)

(** X11: the mock never looks at the radius: two accepted bodies with
    the same coordinates get the same answer. *)
Theorem mock_ignores_radius b b' req req' :
  validate_request b = inr req ->
  validate_request b' = inr req' ->
  json_latitude b = json_latitude b' ->
  json_longitude b = json_longitude b' ->
  MainSimple.post_soil_carbon b = MainSimple.post_soil_carbon b'.
Proof.
  intros Hv Hv' Hlat Hlon. unfold MainSimple.post_soil_carbon.
  rewrite Hv, Hv'.
  apply validate_request_accepts in Hv as (_ & _ & _ & ->).
  apply validate_request_accepts in Hv' as (_ & _ & _ & ->).
  unfold MainSimple.get_soil_carbon, MainSimple.mock_data. simpl.
  now rewrite Hlat, Hlon.
Qed.

Lemma mock_ignores_radius_witness :
  validate_request (Fixtures.origin Null)
  = inr {| latitude := 0; longitude := 0; max_distance_km := None |} /\
  validate_request (Fixtures.origin (Given 1000))
  = inr {| latitude := 0; longitude := 0; max_distance_km := Some 1000 |} /\
  MainSimple.post_soil_carbon (Fixtures.origin Null)
  = MainSimple.post_soil_carbon (Fixtures.origin (Given 1000)).
Proof.
  split; [reflexivity|]. split; [reflexivity|].
  exact (mock_ignores_radius
           (Fixtures.origin Null) (Fixtures.origin (Given 1000))
           {| latitude := 0; longitude := 0; max_distance_km := None |}
           {| latitude := 0; longitude := 0; max_distance_km := Some 1000 |}
           eq_refl eq_refl eq_refl eq_refl).
Defined.

(** X12: the two variants turn away the same bodies in the same way:
    with the same 422 report, or with the same plain-text 500 when the
    report cannot be rendered.  The mock has three answers: a 200 for an
    accepted body, a 422 for a rejected body whose numbers are all finite,
    and the plain-text 500 for a body that carries an infinity or a
    NaN. *)
Theorem variants_reject_alike E b :
  (forall errs,
      MainSimple.post_soil_carbon b = HttpError 422 (DetailErrors errs) <->
      Main.post_soil_carbon E b = (HttpError 422 (DetailErrors errs), [])) /\
  (forall text,
      MainSimple.post_soil_carbon b = PlainText 500 text <->
      Main.post_soil_carbon E b = (PlainText 500 text, [])) /\
  ((exists req body,
       validate_request b = inr req /\
       MainSimple.post_soil_carbon b = Http200 body) \/
   (exists errs,
       validate_request b = inl errs /\ Ieee.all_finite b = true /\
       MainSimple.post_soil_carbon b = HttpError 422 (DetailErrors errs)) \/
   (Ieee.all_finite b = false /\
    MainSimple.post_soil_carbon b = PlainText 500 "Internal Server Error")).
Proof.
  unfold Main.post_soil_carbon, MainSimple.post_soil_carbon.
  destruct (validate_request b) as [errs0|req] eqn:Hv.
  - split; [|split].
    + intros errs. split; [intros ->; reflexivity|intros [= ->]; reflexivity].
    + intros text. split; [intros ->; reflexivity|intros [= ->]; reflexivity].
    + destruct (Ieee.all_finite b) eqn:Hfin.
      * rewrite (request_validation_response_finite b errs0 Hfin).
        right. left. exists errs0. auto.
      * rewrite (request_validation_response_non_finite b errs0 Hfin).
        right. right. auto.
  - destruct (validated_coordinates b req Hv) as [Hlat Hlon].
    rewrite (get_soil_carbon_in_range E req Hlat Hlon).
    unfold MainSimple.get_soil_carbon. rewrite Hlat, Hlon. simpl.
    split; [|split].
    + intros errs. split; [discriminate|].
      destruct (find_soil_carbon_optimized _ _ _ _) as [[msg|res]|e];
        discriminate.
    + intros text. split; [discriminate|].
      destruct (find_soil_carbon_optimized _ _ _ _) as [[msg|res]|e];
        discriminate.
    + left. exists req. eexists. split; reflexivity.
Qed.

(** X13: the mock's "slightly offset" coordinates leave the valid range
    at the upper bounds: for an accepted body at latitude 90 or longitude
    180 the returned coordinate is no longer an acceptable one. *)
Theorem mock_offset_leaves_range b req :
  validate_request b = inr req ->
  (json_latitude b = 90 ->
   exists body d lat',
     MainSimple.post_soil_carbon b = Http200 body /\
     data body = Some d /\
     get d "latitude" = Some (Float lat') /\
     between (-90) lat' 90 = false) /\
  (json_longitude b = 180 ->
   exists body d lon',
     MainSimple.post_soil_carbon b = Http200 body /\
     data body = Some d /\
     get d "longitude" = Some (Float lon') /\
     between (-180) lon' 180 = false).
Proof.
  intros Hv. unfold MainSimple.post_soil_carbon. rewrite Hv.
  destruct (validated_coordinates b req Hv) as [Hlat Hlon].
  unfold MainSimple.get_soil_carbon. rewrite Hlat, Hlon. simpl.
  apply validate_request_accepts in Hv as (_ & _ & _ & ->). simpl.
  split; intros Heq; do 3 eexists;
    (split; [reflexivity|]); (split; [reflexivity|]);
    (split; [reflexivity|]); rewrite Heq; reflexivity.
Qed.

Lemma mock_offset_leaves_range_witness :
  validate_request {| json_latitude := 90; json_longitude := 180;
                      json_max_distance_km := Omitted |}
  = inr {| latitude := 90; longitude := 180; max_distance_km := Some 10 |} /\
  exists body d lat',
    MainSimple.post_soil_carbon {| json_latitude := 90; json_longitude := 180;
                                   json_max_distance_km := Omitted |}
    = Http200 body /\
    data body = Some d /\
    get d "latitude" = Some (Float lat') /\
    between (-90) lat' 90 = false.
Proof.
  split; [reflexivity|].
  exact (proj1 (mock_offset_leaves_range
                  {| json_latitude := 90; json_longitude := 180;
                     json_max_distance_km := Omitted |}
                  {| latitude := 90; longitude := 180;
                     max_distance_km := Some 10 |}
                  eq_refl)
               eq_refl).
Defined.

(** ** The smoke test against the two variants *)

Lemma answer_to_numeric_request E b req r :
  validate_request b = inr req ->
  max_distance_km req = Some r ->
  match get_properties E with
  | Returned _ => exists body, fst (Main.post_soil_carbon E b) = Http200 body
  | Raised _ => exists d, fst (Main.post_soil_carbon E b) = HttpError 500 d
  end.
Proof.
  intros Hv Hr. rewrite (post_soil_carbon_accepted E b req Hv).
  destruct (validated_coordinates b req Hv) as [Hlat Hlon].
  rewrite (get_soil_carbon_in_range E req Hlat Hlon), Hr. simpl.
  destruct (get_properties E) as [props|e] eqn:Hp.
  - destruct (find_returns_with_table
                E (latitude req) (longitude req) r props Hp
                (validated_radius_finite b req r Hv Hr)) as [res ->].
    destruct res; eexists; reflexivity.
  - rewrite (find_raises_when_loading_fails _ _ _ _ e Hp).
    eexists. reflexivity.
Qed.

(** X14: whatever body is sent, once either variant has answered, the
    loop of the test script prints neither of its ['N/A'] defaults and
    does not end in its [except] branch: every answer with data carries
    both [carbon_pct] and [distance_meters], every 200 is a JSON body with
    the three keys the script reads, and every other answer, the
    plain-text 500 included, is printed as a failure with its status.  The
    [except] line is what the loop prints when [requests.post] itself
    raises. *)
Theorem na_default_is_never_printed E name b e :
  let real :=
      TestApi.report name (Returned (fst (Main.post_soil_carbon E b))) in
  let mock := TestApi.report name (Returned (MainSimple.post_soil_carbon b)) in
  (~ In (TestApi.CarbonLine None) real /\
   ~ In (TestApi.DistanceLine None) real /\
   ~ In TestApi.RequestException real) /\
  (~ In (TestApi.CarbonLine None) mock /\
   ~ In (TestApi.DistanceLine None) mock /\
   ~ In TestApi.RequestException mock) /\
  TestApi.report name (Raised e)
  = [TestApi.Testing name; TestApi.RequestException].
Proof.
  assert (Hfail : forall response,
             (TestApi.status_code response =? 200)%Z = false ->
             let lines := TestApi.report name (Returned response) in
             ~ In (TestApi.CarbonLine None) lines /\
             ~ In (TestApi.DistanceLine None) lines /\
             ~ In TestApi.RequestException lines).
  { intros response Hs. unfold TestApi.report. rewrite Hs. simpl.
    repeat split; intros H; repeat destruct H as [H|H];
      try discriminate; assumption. }
  assert (Hrejected : forall errs,
             let lines :=
                 TestApi.report name
                   (Returned (request_validation_response b errs)) in
             ~ In (TestApi.CarbonLine None) lines /\
             ~ In (TestApi.DistanceLine None) lines /\
             ~ In TestApi.RequestException lines).
  { intros errs.
    destruct (request_validation_response_cases b errs) as [-> | ->];
      now apply Hfail. }
  unfold Main.post_soil_carbon, MainSimple.post_soil_carbon.
  destruct (validate_request b) as [errs|req] eqn:Hv.
  - split; [apply Hrejected|]. split; [apply Hrejected|reflexivity].
  - destruct (validated_coordinates b req Hv) as [Hlat Hlon].
    rewrite (get_soil_carbon_in_range E req Hlat Hlon).
    unfold MainSimple.get_soil_carbon. rewrite Hlat, Hlon. simpl.
    split; [|split; [|reflexivity]].
    + destruct (find_soil_carbon_optimized _ _ _ _) as [[msg|res]|e'] eqn:Hf.
      * simpl. repeat split; intros H; repeat destruct H as [H|H];
          try discriminate; assumption.
      * destruct (successful_lookup_has_reading _ _ _ _ _ Hf)
          as (nearest & c & -> & _).
        simpl. repeat split; intros H; repeat destruct H as [H|H];
          try discriminate; assumption.
      * now apply Hfail.
    + repeat split; intros H; repeat destruct H as [H|H];
        try discriminate; assumption.
Qed.

(** X15: for every library layer, once the server answers, the script
    reports its third scenario, "Invalid coordinates (should fail)", as
    failed with status 422; it reports Boston and San Francisco as
    successful when the dataset loads, and as failed with status 500 when
    it does not. *)
Theorem test_script_outcome E :
  exists boston_lines san_francisco_lines,
    TestApi.test_soil_carbon_endpoint
      (fun b => Returned (fst (Main.post_soil_carbon E b)))
    = ((TestApi.Testing "Boston, MA" :: boston_lines)
       ++ (TestApi.Testing "San Francisco, CA" :: san_francisco_lines)
       ++ [ TestApi.Testing "Invalid coordinates (should fail)";
            TestApi.RequestFailed 422;
            TestApi.ErrorLine
              (HttpError 422
                 (DetailErrors
                    [ {| loc := "latitude";
                         violated := LessThanEqual 90 |} ])) ])%list /\
    match get_properties E with
    | Returned _ =>
        hd_error boston_lines = Some TestApi.RequestSuccessful /\
        hd_error san_francisco_lines = Some TestApi.RequestSuccessful
    | Raised _ =>
        hd_error boston_lines = Some (TestApi.RequestFailed 500) /\
        hd_error san_francisco_lines = Some (TestApi.RequestFailed 500)
    end.
Proof.
  pose proof (answer_to_numeric_request
                E Fixtures.boston _ 10 eq_refl eq_refl) as Hb.
  pose proof (answer_to_numeric_request
                E Fixtures.san_francisco _ 5 eq_refl eq_refl) as Hs.
  assert (Hthird : fst (Main.post_soil_carbon E Fixtures.invalid_latitude)
                   = HttpError 422
                       (DetailErrors
                          [ {| loc := "latitude";
                               violated := LessThanEqual 90 |} ]))
    by reflexivity.
  unfold TestApi.test_soil_carbon_endpoint, TestApi.test_cases.
  cbn [flat_map fst snd]. rewrite Hthird, app_nil_r.
  destruct (get_properties E);
    destruct Hb as [xb ->]; destruct Hs as [xs ->];
    do 2 eexists; (split; [reflexivity|]); split; reflexivity.
Qed.

(** The same run against the mock. *)
Example test_script_against_mock :
  TestApi.test_soil_carbon_endpoint
    (fun b => Returned (MainSimple.post_soil_carbon b))
  = [ TestApi.Testing "Boston, MA";
      TestApi.RequestSuccessful;
      TestApi.SuccessLine true;
      TestApi.MessageLine "Mock soil carbon data returned successfully";
      TestApi.CarbonLine (Some (Float 2.5));
      TestApi.DistanceLine (Some (Float 1500));
      TestApi.Testing "San Francisco, CA";
      TestApi.RequestSuccessful;
      TestApi.SuccessLine true;
      TestApi.MessageLine "Mock soil carbon data returned successfully";
      TestApi.CarbonLine (Some (Float 2.5));
      TestApi.DistanceLine (Some (Float 1500));
      TestApi.Testing "Invalid coordinates (should fail)";
      TestApi.RequestFailed 422;
      TestApi.ErrorLine
        (HttpError 422
           (DetailErrors
              [ {| loc := "latitude"; violated := LessThanEqual 90 |} ])) ].
Proof. vm_compute. reflexivity. Qed.

(** ** The welcome payloads *)

(** X16: each variant advertises under [endpoints] every route it
    registers; whatever the real service advertises the mock advertises
    with the same text; and the real service, which has no health route,
    does not advertise one. *)
Theorem declared_routes_are_advertised :
  (forall route, In route Welcome.main_routes ->
     exists text,
       Welcome.lookup (Welcome.endpoints Welcome.main_root) route = Some text) /\
  (forall route, In route Welcome.main_simple_routes ->
     exists text,
       Welcome.lookup (Welcome.endpoints Welcome.main_simple_root) route
       = Some text) /\
  (forall route text,
     In (route, text) (Welcome.endpoints Welcome.main_root) ->
     Welcome.lookup (Welcome.endpoints Welcome.main_simple_root) route
     = Some text) /\
  Welcome.lookup (Welcome.endpoints Welcome.main_root) "GET /health" = None /\
  ~ In "GET /health" Welcome.main_routes.
Proof.
  split; [|split; [|split; [|split]]].
  - intros route H. simpl in H.
    repeat destruct H as [<-|H]; try contradiction; eexists; reflexivity.
  - intros route H. simpl in H.
    repeat destruct H as [<-|H]; try contradiction; eexists; reflexivity.
  - intros route text H. simpl in H.
    repeat destruct H as [[= <- <-]|H]; try contradiction; reflexivity.
  - reflexivity.
  - simpl. intros H. repeat destruct H as [H|H]; try discriminate; assumption.
Qed.

(** ** The bounding box against the radius, over the reals *)

Section BoundingBox.
Import Epsg3857 Mercator.
Local Open Scope R_scope.

Lemma PI_above_3_135 : 3.135 < PI.
Proof.
  pose proof (PI_2_3_7_ineq 0) as [Hlow _].
  unfold sum_f_R0, tg_alt, PI_2_3_7_tg, Ratan_seq in Hlow.
  simpl in Hlow. lra.
Qed.

Lemma planar_distance_ge_dx p q :
  Rabs (fst p - fst q) <= planar_distance p q.
Proof.
  unfold planar_distance. rewrite <- sqrt_Rsqr_abs.
  apply sqrt_le_1_alt. pose proof (Rle_0_sqr (snd p - snd q)). lra.
Qed.

Lemma planar_distance_ge_dy p q :
  Rabs (snd p - snd q) <= planar_distance p q.
Proof.
  unfold planar_distance. rewrite <- sqrt_Rsqr_abs.
  apply sqrt_le_1_alt. pose proof (Rle_0_sqr (fst p - fst q)). lra.
Qed.

Lemma stretched_derivative c :
  - (PI / 2) < c < PI / 2 ->
  derivable_pt_lim stretched c
    (/ tan (PI / 4 + c / 2)
     * ((1 + tan (PI / 4 + c / 2) ^ 2) * (0 + 1 / 2))).
Proof.
  intros [Hlo Hhi].
  assert (Hu : - PI / 2 < PI / 4 + c / 2 < PI / 2) by (split; lra).
  set (inner := plus_fct (fct_cte (PI / 4)) (fun y => id y / 2)).
  change stretched with (comp ln (comp tan inner)).
  apply derivable_pt_lim_comp.
  - apply derivable_pt_lim_comp.
    + unfold inner. apply derivable_pt_lim_plus.
      * apply derivable_pt_lim_const.
      * apply derivable_pt_lim_div_scal. apply derivable_pt_lim_id.
    + unfold inner, plus_fct, fct_cte, id.
      apply (derive_pt_eq_1 tan _ _ (derivable_pt_tan _ Hu)).
      apply derive_pt_tan.
  - unfold comp, inner, plus_fct, fct_cte, id.
    apply derivable_pt_lim_ln. apply tan_gt_0; lra.
Qed.

(** The projection stretches every meridian arc: ordinates lie at
    least as far apart as the latitudes they come from. *)
Lemma stretched_expands phi1 phi2 :
  - (PI / 2) < phi1 -> phi1 <= phi2 -> phi2 < PI / 2 ->
  phi2 - phi1 <= stretched phi2 - stretched phi1.
Proof.
  intros Hlo [Hlt|<-] Hhi; [|lra].
  destruct (MVT_cor2 stretched
              (fun c => / tan (PI / 4 + c / 2)
                        * ((1 + tan (PI / 4 + c / 2) ^ 2) * (0 + 1 / 2)))
              phi1 phi2 Hlt) as (c & Heq & Hc).
  { intros c Hc. apply stretched_derivative. lra. }
  rewrite Heq.
  assert (Ht : 0 < tan (PI / 4 + c / 2)) by (apply tan_gt_0; lra).
  set (t := tan (PI / 4 + c / 2)) in *.
  assert (Hge : 1 <= / t * ((1 + t ^ 2) * (0 + 1 / 2))).
  { apply Rmult_le_reg_l with t; [exact Ht|].
    replace (t * (/ t * ((1 + t ^ 2) * (0 + 1 / 2))))
      with ((1 + t * t) / 2) by (field; lra).
    pose proof (Rle_0_sqr (t - 1)) as Hsq. unfold Rsqr in Hsq. lra. }
  nra.
Qed.

(** X17: the bounding box of [max_distance_km / 111] degrees is a safe
    prefilter for the radius test that follows it: a sample outside the
    box, on any of its four sides, has a [distance_m] beyond
    [max_distance_km * 1000], so the box never removes a row that the
    radius filter would have kept. *)
Theorem bounding_box_never_hides_a_nearby_sample lat lon slat slon r :
  -90 < lat < 90 -> -90 < slat < 90 -> 0 <= r ->
  slon < lon - r / 111 \/ lon + r / 111 < slon \/
  slat < lat - r / 111 \/ lat + r / 111 < slat ->
  r * 1000 < distance_m lat lon slat slon.
Proof.
  intros Hlat Hslat Hr Hout.
  pose proof PI_above_3_135 as Hpi. pose proof PI_4 as Hpi4.
  unfold distance_m.
  pose proof (planar_distance_ge_dx (forward (slon, slat))
                                    (forward (lon, lat))) as Hdx.
  pose proof (planar_distance_ge_dy (forward (slon, slat))
                                    (forward (lon, lat))) as Hdy.
  unfold forward in Hdx, Hdy. simpl in Hdx, Hdy.
  fold (stretched (radians slat)) in Hdy.
  fold (stretched (radians lat)) in Hdy.
  set (D := planar_distance _ _) in *.
  set (k := semi_major_axis * (PI / 180)).
  assert (Hk0 : 0 < k) by (unfold k, semi_major_axis; nra).
  assert (Hk : r * 1000 <= k * (r / 111)).
  { unfold k, semi_major_axis.
    replace (6378137 * (PI / 180) * (r / 111))
      with (r * (6378137 * PI / 19980)) by field.
    apply Rmult_le_compat_l; lra. }
  assert (Hrad : forall d, radians d = PI / 180 * d)
    by (intros; unfold radians; field).
  assert (Hrl : - (PI / 2) < radians lat < PI / 2)
    by (rewrite Hrad; split; nra).
  assert (Hrs : - (PI / 2) < radians slat < PI / 2)
    by (rewrite Hrad; split; nra).
  assert (Hlin : forall d e,
            semi_major_axis * radians d - semi_major_axis * radians e
            = k * (d - e)).
  { intros d e. rewrite !Hrad. unfold k. ring. }
  assert (Hlat_lin : forall d e,
            radians d - radians e = PI / 180 * (d - e)).
  { intros d e. rewrite !Hrad. ring. }
  destruct Hout as [H|[H|[H|H]]].
  - pose proof (Rle_abs (- (semi_major_axis * radians slon
                           - semi_major_axis * radians lon))) as Habs.
    rewrite Rabs_Ropp in Habs. rewrite Hlin in Habs, Hdx.
    assert (k * (r / 111) < k * (lon - slon))
      by (apply Rmult_lt_compat_l; lra).
    lra.
  - pose proof (Rle_abs (semi_major_axis * radians slon
                         - semi_major_axis * radians lon)) as Habs.
    rewrite Hlin in Habs, Hdx.
    assert (k * (r / 111) < k * (slon - lon))
      by (apply Rmult_lt_compat_l; lra).
    lra.
  - assert (Hs : radians lat - radians slat
                 <= stretched (radians lat) - stretched (radians slat)).
    { apply stretched_expands; try lra. rewrite !Hrad.
      apply Rmult_le_compat_l; lra. }
    rewrite Hlat_lin in Hs.
    pose proof (Rle_abs (- (semi_major_axis * stretched (radians slat)
                           - semi_major_axis * stretched (radians lat))))
      as Habs.
    rewrite Rabs_Ropp in Habs.
    assert (k * (r / 111) < k * (lat - slat))
      by (apply Rmult_lt_compat_l; lra).
    assert (k * (lat - slat)
            <= semi_major_axis * (stretched (radians lat)
                                  - stretched (radians slat))).
    { unfold k. rewrite Rmult_assoc.
      apply Rmult_le_compat_l; [unfold semi_major_axis; lra|exact Hs]. }
    lra.
  - assert (Hs : radians slat - radians lat
                 <= stretched (radians slat) - stretched (radians lat)).
    { apply stretched_expands; try lra. rewrite !Hrad.
      apply Rmult_le_compat_l; lra. }
    rewrite Hlat_lin in Hs.
    pose proof (Rle_abs (semi_major_axis * stretched (radians slat)
                         - semi_major_axis * stretched (radians lat)))
      as Habs.
    assert (k * (r / 111) < k * (slat - lat))
      by (apply Rmult_lt_compat_l; lra).
    assert (k * (slat - lat)
            <= semi_major_axis * (stretched (radians slat)
                                  - stretched (radians lat))).
    { unfold k. rewrite Rmult_assoc.
      apply Rmult_le_compat_l; [unfold semi_major_axis; lra|exact Hs]. }
    lra.
Qed.

(** A sample one degree north of a query at 45 N, for a 100 km search. *)
Lemma bounding_box_never_hides_a_nearby_sample_witness :
  -90 < 45 < 90 /\ -90 < 46 < 90 /\ 0 <= 100 /\
  45 + 100 / 111 < 46 /\
  100 * 1000 < distance_m 45 7 46 7.
Proof.
  assert (H1 : -90 < 45 < 90) by (split; lra).
  assert (H2 : -90 < 46 < 90) by (split; lra).
  assert (H3 : 0 <= 100) by lra.
  assert (H4 : 45 + 100 / 111 < 46) by lra.
  repeat split; try lra.
  exact (bounding_box_never_hides_a_nearby_sample
           45 7 46 7 100 H1 H2 H3 (or_intror (or_intror (or_intror H4)))).
Defined.

End BoundingBox.
